(** * mx_wasm: the GraalWasm source-file project of the [wasm] suite

    A shallow embedding of [wasm/mx.wasm/mx_wasm.py]: the helper functions
    [mkdir_p] and [remove_extension], the project class
    [GraalWasmSourceFileProject] ([getSourceDir], [getOutputDir],
    [getSources], [getResults]) and the build task
    [GraalWasmSourceFileTask] ([build], [needsBuild], [clean]).

    The Python and mx library functions the module calls
    ([str.endswith], slicing, [os.path.join], [os.makedirs] with the
    [posixpath.split] and [os.path.exists] it uses, [os.path.isdir],
    [os.walk], [mx.get_env], [mx.log], [mx.run], [mx.abort]) are modelled
    in the first part, on a POSIX host. *)

From Stdlib Require Import ZArith.
From stdpp Require Import gmap strings list.

(** ** Python strings *)

Module Py.

(** [s.startswith(prefix)] *)
Definition startswith (s prefix : string) : bool := String.prefix prefix s.

(** [s.endswith(suffix)]: the last [len(suffix)] characters of [s] are
    [suffix]. *)
Definition endswith (s suffix : string) : bool :=
  (String.length suffix <=? String.length s)
  && String.eqb
       (String.substring (String.length s - String.length suffix)
                         (String.length suffix) s)
       suffix.

(** [s[:-k]] for a positive [k]: everything but the last [k] characters
    (the empty string when [s] is shorter than [k]). *)
Definition slice_until_neg (k : nat) (s : string) : string :=
  String.substring 0 (String.length s - k) s.

(** [not s] for a string: the empty string is falsy. *)
Definition falsy (s : string) : bool := String.eqb s "".

End Py.

(** ** posixpath *)

Module PosixPath.

(** One round of the loop of [posixpath.join]: an absolute component
    restarts the path, otherwise it is appended after exactly one
    separator. *)
Definition join2 (path b : string) : string :=
  if Py.startswith b "/" then b
  else if Py.falsy path || Py.endswith path "/" then path +:+ b
  else path +:+ "/" +:+ b.

(** [os.path.join(a, *p)] *)
Definition join (a : string) (p : list string) : string :=
  fold_left join2 p a.

(** The separator, ["/"], as a character. *)
Definition sep : Ascii.ascii := Ascii.ascii_of_nat 47.

Definition is_sep (c : Ascii.ascii) : bool := Ascii.eqb c sep.

(** [p.rfind("/") + 1]: the length of [p] up to and including its last
    separator, 0 when it has none. *)
Fixpoint after_last_sep (p : string) : nat :=
  match p with
  | "" => 0
  | String c rest =>
      match after_last_sep rest with
      | 0 => if is_sep c then 1 else 0
      | S i => S (S i)
      end
  end.

(** [s.rstrip("/")] *)
Fixpoint rstrip_sep (s : string) : string :=
  match s with
  | "" => ""
  | String c rest =>
      let rest' := rstrip_sep rest in
      if Py.falsy rest' && is_sep c then "" else String c rest'
  end.

(** ["/" * n] *)
Fixpoint sep_times (n : nat) : string :=
  match n with
  | 0 => ""
  | S n' => String sep (sep_times n')
  end.

(** [posixpath.split(p)]: the part up to the last separator, without its
    trailing separators unless it is made of separators only, and the part
    after it. *)
Definition split (p : string) : string * string :=
  let i := after_last_sep p in
  let head := String.substring 0 i p in
  let tail := String.substring i (String.length p - i) p in
  (if negb (Py.falsy head) && negb (String.eqb head (sep_times (String.length head)))
   then rstrip_sep head
   else head,
   tail).

End PosixPath.

(** ** Exceptions *)

Inductive errno := EEXIST | ENOENT | EACCES | ENOTDIR | EROFS | ENOSPC.

(** What can leave a call of this module other than a value: the
    [SystemExit] of [mx.abort], called with a message or with a process exit
    status, and the [OSError] of a system call. *)
Inductive exn :=
| AbortMsg (msg : string)
| AbortCode (code : Z)
| OSError (e : errno).

Inductive result (A : Type) :=
| Ok (a : A)
| Raise (e : exn).
Arguments Ok {A} a.
Arguments Raise {A} e.

#[global] Instance errno_eq_dec : EqDecision errno.
Proof. solve_decision. Defined.

#[global] Instance exn_eq_dec : EqDecision exn.
Proof. solve_decision. Defined.

(** The three failures of the specification's taxonomy, as the exceptions
    the module raises for them. *)
Definition UnsupportedExtension (filename : string) : exn :=
  AbortMsg ("Unknown extension: " +:+ filename).

Definition MissingToolchain : exn :=
  AbortMsg "No EMCC_DIR specified - the source programs will not be compiled to .wat and .wasm.".

Definition CompileFailure (status : Z) : exn := AbortCode status.

(** ** remove_extension *)

Definition remove_extension (filename : string) : result string :=
  if Py.endswith filename ".c" then Ok (Py.slice_until_neg 2 filename)
  else Raise (UnsupportedExtension filename).

(** ** The project *)

(** The attributes of a [GraalWasmSourceFileProject] that this module reads:
    [self.name], [self.dir] and [self.subDir], and the value of the
    inherited [self.get_output_base()]. *)
Record project := {
  name : string;
  dir : string;
  subDir : string;
  output_base : string;
}.

Definition getSourceDir (self : project) : string :=
  PosixPath.join (dir self) ["src"; name self; subDir self].

Definition getOutputDir (self : project) : string :=
  PosixPath.join (output_base self) [name self].

(** ** The file system *)

Set Warnings "-register-all".

(** What is found under a name: a regular file (or a link to one); a
    directory with its listing, in the order the operating system lists it;
    a symbolic link to a directory, with the listing of that directory; or
    any other entry that is not a directory (a dangling link, a FIFO, a
    socket, a device). *)
Inductive node :=
| File
| Dir (entries : list (string * node))
| DirLink (target : list (string * node))
| Other.

(** Induction on a tree, with the property available for every entry of a
    directory. *)
Section node_induction.

Variable P : node → Prop.
Hypothesis P_File : P File.
Hypothesis P_Dir : ∀ entries, Forall (λ e, P e.2) entries → P (Dir entries).
Hypothesis P_DirLink : ∀ target, P (DirLink target).
Hypothesis P_Other : P Other.

Fixpoint node_induction (n : node) : P n :=
  match n with
  | File => P_File
  | Dir entries =>
      P_Dir entries
        ((fix each (l : list (string * node)) : Forall (λ e, P e.2) l :=
            match l with
            | [] => List.Forall_nil _
            | e :: l' =>
                @List.Forall_cons _ (λ e, P e.2) e l'
                  (match e return P e.2 with (_, sub) => node_induction sub end)
                  (each l')
            end) entries)
  | DirLink target => P_DirLink target
  | Other => P_Other
  end.

End node_induction.

(** The file system as the module reaches it: what is found at each path
    that is handed to a system call (after the links on the way to it are
    followed), and the paths at which the operating system refuses to
    create a directory (with the error it gives). What is recorded at one
    path is not tied to what is recorded at another: a directory that is
    made is recorded at its own path, and the listing recorded for its
    parent is left as it is. *)
Record filesystem := {
  nodes : gmap string node;
  mkdir_denied : gmap string errno;
}.

(** A directory, or a link to one. *)
Definition is_dir (n : node) : bool :=
  match n with
  | Dir _ | DirLink _ => true
  | File | Other => false
  end.

(** [os.path.exists(path)]: something is at [path]; the root directory, a
    path of separators only, is always there. *)
Definition path_exists (fs : filesystem) (path : string) : bool :=
  (negb (Py.falsy path)
   && String.eqb path (PosixPath.sep_times (String.length path)))
  || bool_decide (is_Some (nodes fs !! path)).

(** [os.path.isdir(path)] *)
Definition isdir (fs : filesystem) (path : string) : bool :=
  match nodes fs !! path with
  | Some n => is_dir n
  | None => false
  end.

(** The head and tail with which [os.makedirs(name)] starts: those of
    [split(name)], or of [split(head)] when that tail is empty. *)
Definition split_for_makedirs (name : string) : string * string :=
  let (head, tail) := PosixPath.split name in
  if Py.falsy tail then PosixPath.split head else (head, tail).

(** The directories that [os.makedirs(name)] makes before it comes to
    [name] itself: while the head of a name is not empty, has a tail after
    it and does not exist, the directories missing for the head and then
    the head. The recursion is on a shorter name each time, so that the
    length of [name] is fuel enough. *)
Fixpoint missing_parents (fuel : nat) (fs : filesystem) (name : string) : list string :=
  match fuel with
  | 0 => []
  | S fuel' =>
      let (head, tail) := split_for_makedirs name in
      if negb (Py.falsy head) && negb (Py.falsy tail) && negb (path_exists fs head)
      then missing_parents fuel' fs head ++ [head]
      else []
  end.

(** The file system with a new, empty directory at each of the paths. *)
Definition make_dirs (paths : list string) (fs : filesystem) : filesystem :=
  {| nodes := foldr (λ path m, <[path := Dir []]> m) (nodes fs) paths;
     mkdir_denied := mkdir_denied fs |}.

(** [os.makedirs(path)]: the missing parents are made first, from the top;
    then [mkdir(path)] is refused by the operating system, or fails with
    [EEXIST] when something is at [path] already, or makes a new empty
    directory. What was made before a failure stays. A refusal is an input
    of the model: it is recorded for the path of the call and comes at this
    last step, after the parents are made. *)
Definition makedirs (path : string) (fs : filesystem) : result unit * filesystem :=
  let made := make_dirs (missing_parents (String.length path) fs path) fs in
  match mkdir_denied made !! path with
  | Some e => (Raise (OSError e), made)
  | None =>
      match nodes made !! path with
      | Some _ => (Raise (OSError EEXIST), made)
      | None =>
          (Ok tt, {| nodes := <[path := Dir []]> (nodes made);
                     mkdir_denied := mkdir_denied made |})
      end
  end.

(** The [dirs] and [files] lists that [os.walk] builds from one listing. *)
Definition dirnames (entries : list (string * node)) : list string :=
  (filter (λ e, is_dir e.2 = true) entries).*1.

Definition filenames (entries : list (string * node)) : list string :=
  (filter (λ e, is_dir e.2 = false) entries).*1.

(** [os.walk(top)] below a node, with the default [followlinks=False]:
    top-down, the triple of a directory before those of its subdirectories,
    which are visited in listing order under the path
    [os.path.join(top, name)]. A link to a directory is among the [dirs] of
    its parent and is not entered; an entry that is not a directory has
    nothing to list. *)
Fixpoint walk (top : string) (n : node) : list (string * list string * list string) :=
  match n with
  | Dir entries =>
      (top, dirnames entries, filenames entries)
        :: (entries ≫= λ e, match e with
                            | (dirname, sub) => walk (PosixPath.join2 top dirname) sub
                            end)
  | File | DirLink _ | Other => []
  end.

(** What is listed at the top of a walk: the listing of a directory, also
    when the path leads to it through a link. *)
Definition followed (n : node) : node :=
  match n with
  | DirLink target => Dir target
  | _ => n
  end.

(** [os.walk(top)] with the default [onerror=None]: a [top] that cannot be
    listed (absent, or not a directory) gives no triple and no error. *)
Definition os_walk (fs : filesystem) (top : string)
  : list (string * list string * list string) :=
  match nodes fs !! top with
  | Some n => walk top (followed n)
  | None => []
  end.

(** ** getSources and getResults *)

Definition getSources (self : project) (fs : filesystem) : list (string * string) :=
  '(root, dirs, files) ← os_walk fs (getSourceDir self);
  filename ← files;
  if Py.endswith filename ".c" then [(root, filename)] else [].

(** The loop of a generator whose body may abort. *)
Fixpoint yield_each {A B : Type} (body : A → result B) (l : list A) : result (list B) :=
  match l with
  | [] => Ok []
  | x :: l' =>
      match body x with
      | Raise e => Raise e
      | Ok y =>
          match yield_each body l' with
          | Raise e => Raise e
          | Ok ys => Ok (y :: ys)
          end
      end
  end.

(** The path that [getResults] yields for one source unit. *)
Definition result_path (output_dir : string) (unit : string * string) : result string :=
  match remove_extension unit.2 with
  | Ok base => Ok (PosixPath.join2 output_dir (base +:+ ".wasm"))
  | Raise e => Raise e
  end.

Definition getResults (self : project) (fs : filesystem) : result (list string) :=
  let output_dir := getOutputDir self in
  yield_each (result_path output_dir) (getSources self fs).

(** ** The build task *)

(** What a build leaves outside the file system: the lines given to
    [mx.log] and the commands given to [mx.run], in the order of the
    calls. *)
Inductive event :=
| Log (msg : string)
| Run (cmd : list string).

(** The part of the host that a build only reads: the process environment,
    and the exit status with which each command ends (non-zero also stands
    for a command that could not be started). *)
Record host := {
  environ : gmap string string;
  exit_status : list string → Z;
}.

(** The part that a build changes. *)
Record state := {
  fs : filesystem;
  trace : list event;
}.

(** Statements of the build task: they read the host, change the state, and
    end with a value or with an exception, after which nothing else runs. *)
Definition M (A : Type) : Type := host → state → result A * state.

Definition ret {A : Type} (a : A) : M A := λ _ s, (Ok a, s).

Definition bind {A B : Type} (m : M A) (k : A → M B) : M B :=
  λ h s, match m h s with
         | (Ok a, s') => k a h s'
         | (Raise e, s') => (Raise e, s')
         end.

Definition raise {A : Type} (e : exn) : M A := λ _ s, (Raise e, s).

Definition lift {A : Type} (r : result A) : M A := λ _ s, (r, s).

Declare Scope build_scope.
Delimit Scope build_scope with build.
Notation "x <- m ;; k" := (bind m (λ x, k))
  (at level 100, m at next level, right associativity) : build_scope.
Notation "m ;; k" := (bind m (λ _, k))
  (at level 100, right associativity) : build_scope.
Open Scope build_scope.

(** [try: body except OSError as exc: handler(exc)] *)
Definition try_except_OSError {A : Type} (body : M A) (handler : errno → M A) : M A :=
  λ h s, match body h s with
         | (Raise (OSError e), s') => handler e h s'
         | r => r
         end.

Definition os_makedirs (path : string) : M unit :=
  λ _ s, let (r, fs') := makedirs path (fs s) in
         (r, {| fs := fs'; trace := trace s |}).

Definition os_path_isdir (path : string) : M bool :=
  λ _ s, (Ok (isdir (fs s) path), s).

(** [mx.get_env(key, None)] *)
Definition mx_get_env (key : string) : M (option string) :=
  λ h s, (Ok (environ h !! key), s).

Definition mx_log (msg : string) : M unit :=
  λ _ s, (Ok tt, {| fs := fs s; trace := trace s ++ [Log msg] |}).

(** [mx.abort(codeOrMessage)] *)
Definition mx_abort {A : Type} (e : exn) : M A := raise e.

(** [mx.run(args)], with the default [nonZeroIsFatal=True]: the command runs
    to its end, and a non-zero exit status aborts the build with it. *)
Definition mx_run (args : list string) : M unit :=
  λ h s, let s' := {| fs := fs s; trace := trace s ++ [Run args] |} in
         if decide (exit_status h args = 0%Z) then (Ok tt, s')
         else (Raise (CompileFailure (exit_status h args)), s').

Definition mkdir_p (path : string) : M unit :=
  try_except_OSError (os_makedirs path)
    (λ exc_errno,
       is_directory <- os_path_isdir path ;;
       if bool_decide (exc_errno = EEXIST) && is_directory then ret tt
       else raise (OSError exc_errno)).

(** A [for] loop over a list that the loop does not change. *)
Fixpoint for_each {A : Type} (l : list A) (body : A → M unit) : M unit :=
  match l with
  | [] => ret tt
  | x :: l' => body x ;; for_each l' body
  end.

(** [not emcc_dir]: [None] and the empty string are falsy. *)
Definition not_ (v : option string) : bool :=
  match v with
  | None => true
  | Some s => Py.falsy s
  end.

(** The command of one source unit, as the loop of [build] assembles it. *)
Definition emcc_command (emcc_dir output_dir : string) (unit : string * string)
  : result (list string) :=
  let '(root, filename) := unit in
  let emcc_cmd := PosixPath.join2 emcc_dir "emcc" in
  let flags := ["-Os"] in
  let path := PosixPath.join2 root filename in
  match remove_extension filename with
  | Ok base =>
      let output_path := PosixPath.join2 output_dir (base +:+ ".js") in
      Ok ([emcc_cmd] ++ flags ++ [path; "-o"; output_path])
  | Raise e => Raise e
  end.

(** [build]. After the test of [emcc_dir] it is a non-empty string, which
    [default] reads out of the option. The sources are those of the file
    system as it is when the loop starts: a command changes the trace, not
    the directories being walked. *)
Definition build (self : project) : M unit :=
  let source_dir := getSourceDir self in
  let output_dir := getOutputDir self in
  mkdir_p output_dir ;;
  emcc_dir <- mx_get_env "EMCC_DIR" ;;
  (if not_ emcc_dir then mx_abort MissingToolchain else ret tt) ;;
  mx_log ("Building files from the source dir: " +:+ source_dir) ;;
  sources <- (λ _ s, (Ok (getSources self (fs s)), s)) ;;
  for_each sources (λ unit,
    args <- lift (emcc_command (default "" emcc_dir) output_dir unit) ;;
    mx_run args).

Definition needsBuild (newestInput : option string) : bool * option string :=
  (true, None).

Definition clean (forBuild : bool) : M unit := ret tt.

(** A generator whose body runs statements, consumed to its end: the values
    in the order of the list, each once the body has run for it. *)
Fixpoint yield_from {A B : Type} (l : list A) (body : A → M B) : M (list B) :=
  match l with
  | [] => ret []
  | x :: l' =>
      y <- body x ;;
      ys <- yield_from l' body ;;
      ret (y :: ys)
  end.

(** [getArchivableResults]: the loop over [self.getResults()], which comes
    with one result at a time from its own loop over the sources; each
    result is logged and then yielded. Neither argument is read. *)
Definition getArchivableResults (self : project) (use_relpath single : bool)
  : M (list string) :=
  let output_dir := getOutputDir self in
  sources <- (λ _ s, (Ok (getSources self (fs s)), s)) ;;
  yield_from sources (λ unit,
    r <- lift (result_path output_dir unit) ;;
    mx_log r ;;
    ret r).

(** The commands that a trace gave to [mx.run]. *)
Definition runs (t : list event) : list (list string) :=
  omap (λ ev, match ev with Run cmd => Some cmd | Log _ => None end) t.

(** ** Vocabulary of the specification *)

(** [s] ends in [suffix]. *)
Definition ends_in (s suffix : string) : Prop := ∃ stem, s = stem +:+ suffix.

(** [file_below top n d f]: in the tree [n] found at path [top], the
    directory reached under the path [d] lists a file named [f]. The tree's
    own directory is at [top]; a subdirectory is at the join of its parent's
    path and its name. *)
Inductive file_below : string → node → string → string → Prop :=
| file_here top entries f :
    (f, File) ∈ entries →
    file_below top (Dir entries) top f
| file_deeper top entries dirname sub d f :
    (dirname, sub) ∈ entries →
    file_below (PosixPath.join2 top dirname) sub d f →
    file_below top (Dir entries) d f.

(** [listed_below top n d f]: in the tree [n] found at path [top], the
    directory reached under the path [d], through directories and through
    no link, lists an entry named [f] that is not a directory: a regular
    file or any other such entry. *)
Inductive listed_below : string → node → string → string → Prop :=
| listed_here top entries f n :
    (f, n) ∈ entries →
    is_dir n = false →
    listed_below top (Dir entries) top f
| listed_deeper top entries dirname sub d f :
    (dirname, Dir sub) ∈ entries →
    listed_below (PosixPath.join2 top dirname) (Dir sub) d f →
    listed_below top (Dir entries) d f.

(** The command line the specification gives for one source unit. *)
Definition expected_command (emcc_dir output_dir : string) (unit : string * string)
  : list string :=
  [PosixPath.join2 emcc_dir "emcc"; "-Os"; PosixPath.join2 unit.1 unit.2; "-o";
   PosixPath.join2 output_dir (Py.slice_until_neg 2 unit.2 +:+ ".js")].

(** The commands of a list that are started when each is waited for and the
    first non-zero exit status ends the build: all up to and including the
    first that fails. *)
Fixpoint until_failure (h : host) (cmds : list (list string)) : list (list string) :=
  match cmds with
  | [] => []
  | cmd :: rest =>
      cmd :: (if decide (exit_status h cmd = 0%Z) then until_failure h rest else [])
  end.

(** [EMCC_DIR] is unset, or set to the empty string. *)
Definition no_emcc_dir (h : host) : Prop :=
  environ h !! "EMCC_DIR" = None ∨ environ h !! "EMCC_DIR" = Some "".

(** The state in which [os.makedirs(path)] has made the parents that were
    missing. *)
Definition after_parents (path : string) (s : state) : state :=
  {| fs := make_dirs (missing_parents (String.length path) (fs s) path) (fs s);
     trace := trace s |}.

(** The state in which [mkdir_p] has just created the directory [path],
    after the parents that were missing. *)
Definition with_new_dir (path : string) (s : state) : state :=
  {| fs := {| nodes := <[path := Dir []]> (nodes (fs (after_parents path s)));
              mkdir_denied := mkdir_denied (fs s) |};
     trace := trace s |}.

(** The declared result the specification gives for one source unit. *)
Definition expected_result (output_dir : string) (unit : string * string) : string :=
  PosixPath.join2 output_dir (Py.slice_until_neg 2 unit.2 +:+ ".wasm").

(** ** Sample projects, trees and hosts *)

Definition bench : project :=
  {| name := "bench"; dir := "/suite"; subDir := "c"; output_base := "/mxbuild" |}.

Definition no_denials : gmap string errno := ∅.

Definition mount (path : string) (n : node) (fs : filesystem) : filesystem :=
  {| nodes := <[path := n]> (nodes fs); mkdir_denied := mkdir_denied fs |}.

Definition empty_fs : filesystem := {| nodes := ∅; mkdir_denied := no_denials |}.

(** The tree of the specification's example: [a.c], [b/c.c] and [d.h]. *)
Definition tree_abd : node :=
  Dir [("a.c", File); ("b", Dir [("c.c", File)]); ("d.h", File)].

(** Two source files side by side. *)
Definition tree_xy : node := Dir [("x.c", File); ("y.c", File)].

(** The same file name in two subdirectories. *)
Definition tree_twins : node :=
  Dir [("one", Dir [("main.c", File)]); ("two", Dir [("main.c", File)])].


Definition env_with_emcc : gmap string string := {[ "EMCC_DIR" := "/opt/emsdk" ]}.

Definition env_without_emcc : gmap string string := ∅.

(** A compiler that always succeeds, and one that fails on every file. *)
Definition emcc_succeeds : list string → Z := λ _, 0%Z.

Definition emcc_fails : list string → Z := λ _, 1%Z.

Definition fresh (f : filesystem) : state := {| fs := f; trace := [] |}.

Definition host_ok : host :=
  {| environ := env_with_emcc; exit_status := emcc_succeeds |}.

Definition host_failing : host :=
  {| environ := env_with_emcc; exit_status := emcc_fails |}.

Definition host_unset : host :=
  {| environ := env_without_emcc; exit_status := emcc_succeeds |}.

(** The sources [x.c] and [y.c] of [bench], with nothing at the path of its
    output directory, and with a file in the way there. *)
Definition src_xy : filesystem := mount "/suite/src/bench/c" tree_xy empty_fs.

Definition blocked_xy : filesystem :=
  mount "/mxbuild/bench" File (mount "/mxbuild" (Dir [("bench", File)]) src_xy).


(** A source directory with a regular file [a.c], a dangling link [z.c], a
    link [lib] to a directory that holds [f.c], and a directory [sub] that
    holds [g.c]. *)
Definition tree_links : node :=
  Dir [("a.c", File); ("z.c", Other);
       ("lib", DirLink [("f.c", File)]);
       ("sub", Dir [("g.c", File)])].

Definition src_links : filesystem := mount "/suite/src/bench/c" tree_links empty_fs.

(** The first command of a list that ends with a non-zero exit status. *)
Definition first_failure (h : host) (cmds : list (list string)) : option (list string) :=
  head (filter (λ cmd, exit_status h cmd ≠ 0%Z) cmds).

(** How a build ends after its loop over [cmds]. *)
Definition loop_outcome (h : host) (cmds : list (list string)) : result unit :=
  match first_failure h cmds with
  | None => Ok tt
  | Some cmd => Raise (CompileFailure (exit_status h cmd))
  end.

(** The line that [build] logs. *)
Definition build_log_line (self : project) : event :=
  Log ("Building files from the source dir: " +:+ getSourceDir self).

(** The number of entries of a tree that are not directories and whose name
    ends in [.c], over the directories reached through no link. *)
Fixpoint count_dot_c (n : node) : nat :=
  match n with
  | Dir entries =>
      sum_list_with
        (λ e, match e with
              | (f, sub) =>
                  match sub with
                  | File | Other => if Py.endswith f ".c" then 1 else 0
                  | Dir _ => count_dot_c sub
                  | DirLink _ => 0
                  end
              end) entries
  | File | DirLink _ | Other => 0
  end.

(** A project laid out with plain path components: none is absolute, and
    none but the subdirectory may be empty or end in a separator. *)
Definition plain_component (c : string) : Prop :=
  c ≠ "" ∧ Py.startswith c "/" = false ∧ ¬ ends_in c "/".

Definition plain_base (c : string) : Prop :=
  c ≠ "" ∧ ¬ ends_in c "/".

(** [deep]: a tree with sources on three levels, next to other files. *)
Definition tree_deep : node :=
  Dir [("main.c", File); ("README", File);
       ("lib", Dir [("util.c", File); ("util.h", File);
                    ("gen", Dir [("tab.c", File)])]);
       ("empty", Dir [])].

Definition src_deep : filesystem := mount "/suite/src/bench/c" tree_deep empty_fs.

(** The device has no space left for the output directory of [bench], once
    its parent is made. *)
Definition full_xy : filesystem :=
  {| nodes := nodes src_xy; mkdir_denied := {[ "/mxbuild/bench" := ENOSPC ]} |}.

(** * Properties *)

(** ** Strings *)

Section strings.

Implicit Types s stem suffix a b : string.

Lemma app_nil_l s : "" +:+ s = s.
Proof. reflexivity. Qed.

Lemma app_cons c a b : String c a +:+ b = String c (a +:+ b).
Proof. reflexivity. Qed.

Lemma app_assoc a b s : (a +:+ b) +:+ s = a +:+ (b +:+ s).
Proof.
  induction a as [|c a IH]; [done|].
  by rewrite !app_cons, IH.
Qed.

Lemma length_app a b :
  String.length (a +:+ b) = String.length a + String.length b.
Proof.
  induction a as [|c a IH]; [done|].
  rewrite app_cons. simpl. by rewrite IH.
Qed.

Lemma substring_0_0 s : String.substring 0 0 s = "".
Proof. by destruct s. Qed.

Lemma substring_0_app a b :
  String.substring 0 (String.length a) (a +:+ b) = a.
Proof.
  induction a as [|c a IH].
  - apply substring_0_0.
  - rewrite app_cons. simpl. by rewrite IH.
Qed.

Lemma substring_all s : String.substring 0 (String.length s) s = s.
Proof. induction s as [|c s IH]; simpl; [done | by rewrite IH]. Qed.

Lemma substring_skip_app a b n :
  String.substring (String.length a) n (a +:+ b) = String.substring 0 n b.
Proof.
  induction a as [|c a IH]; [done|].
  rewrite app_cons. simpl. apply IH.
Qed.

Lemma substring_split s n :
  n ≤ String.length s →
  s = String.substring 0 n s +:+ String.substring n (String.length s - n) s.
Proof.
  revert n. induction s as [|c s IH]; intros [|n] Hn; simpl in *; try lia.
  - done.
  - by rewrite app_nil_l, substring_all.
  - rewrite app_cons. f_equal.
    destruct n as [|n].
    + rewrite substring_0_0, app_nil_l. simpl.
      rewrite Nat.sub_0_r. symmetry. apply substring_all.
    + rewrite (IH (S n)) at 1 by lia. done.
Qed.

Lemma app_inj_r a b s : a +:+ s = b +:+ s → a = b.
Proof.
  intros H.
  assert (String.length a = String.length b) as Hlen.
  { apply (f_equal String.length) in H. rewrite !length_app in H. lia. }
  rewrite <-(substring_0_app a s), H, Hlen. apply substring_0_app.
Qed.

(** [endswith] decides [ends_in]. *)
Lemma endswith_spec s suffix : Py.endswith s suffix = true ↔ ends_in s suffix.
Proof.
  unfold Py.endswith, ends_in. split.
  - intros [Hlen Heq]%andb_true_iff.
    apply Nat.leb_le in Hlen. apply String.eqb_eq in Heq.
    exists (String.substring 0 (String.length s - String.length suffix) s).
    pose proof (substring_split s (String.length s - String.length suffix)) as Hsplit.
    replace (String.length s - (String.length s - String.length suffix))
      with (String.length suffix) in Hsplit by lia.
    rewrite Heq in Hsplit. apply Hsplit. lia.
  - intros [stem ->]. rewrite length_app. apply andb_true_iff. split.
    + apply Nat.leb_le. lia.
    + apply String.eqb_eq.
      replace (String.length stem + String.length suffix - String.length suffix)
        with (String.length stem) by lia.
      rewrite substring_skip_app. apply substring_all.
Qed.

Lemma endswith_false s suffix : Py.endswith s suffix = false ↔ ¬ ends_in s suffix.
Proof.
  rewrite <-endswith_spec. by destruct (Py.endswith s suffix).
Qed.

Lemma slice_until_neg_app stem suffix :
  Py.slice_until_neg (String.length suffix) (stem +:+ suffix) = stem.
Proof.
  unfold Py.slice_until_neg. rewrite length_app.
  replace (String.length stem + String.length suffix - String.length suffix)
    with (String.length stem) by lia.
  apply substring_0_app.
Qed.

Lemma slice_dot_c stem : Py.slice_until_neg 2 (stem +:+ ".c") = stem.
Proof. exact (slice_until_neg_app stem ".c"). Qed.

Lemma ends_in_dot_c_slice s :
  ends_in s ".c" → s = Py.slice_until_neg 2 s +:+ ".c".
Proof.
  intros [stem ->]. by rewrite slice_dot_c.
Qed.

End strings.

(** ** remove_extension *)

Lemma remove_extension_app stem : remove_extension (stem +:+ ".c") = Ok stem.
Proof.
  unfold remove_extension.
  rewrite (proj2 (endswith_spec _ _)) by by exists stem.
  by rewrite slice_dot_c.
Qed.

Lemma remove_extension_Ok filename base :
  remove_extension filename = Ok base ↔ filename = base +:+ ".c".
Proof.
  split.
  - unfold remove_extension. destruct (Py.endswith filename ".c") eqn:E; [|done].
    intros [= <-]. apply ends_in_dot_c_slice. by apply endswith_spec.
  - intros ->. apply remove_extension_app.
Qed.

Lemma remove_extension_Raise filename e :
  remove_extension filename = Raise e →
  ¬ ends_in filename ".c" ∧ e = UnsupportedExtension filename.
Proof.
  unfold remove_extension. destruct (Py.endswith filename ".c") eqn:E; [done|].
  intros [= <-]. split; [by apply endswith_false | done].
Qed.

Lemma remove_extension_not_dot_c filename :
  ¬ ends_in filename ".c" →
  remove_extension filename = Raise (UnsupportedExtension filename).
Proof.
  intros Hno%endswith_false. unfold remove_extension. by rewrite Hno.
Qed.

(** C3. On every filename that ends in [.c], [remove_extension] succeeds
    and returns the filename without its last two characters: the result is
    the slice [filename[:-2]], it is two characters shorter, and putting
    [.c] back after it gives the filename again. *)
Theorem remove_extension_strips_dot_c (filename : string) :
  ends_in filename ".c" →
  ∃ base,
    remove_extension filename = Ok base
    ∧ base = Py.slice_until_neg 2 filename
    ∧ filename = base +:+ ".c"
    ∧ String.length filename = String.length base + 2.
Proof.
  intros [stem ->]. exists stem.
  rewrite remove_extension_app, slice_dot_c, length_app. done.
Qed.

Lemma remove_extension_strips_dot_c_witness :
  ends_in "hello.c" ".c"
  ∧ ∃ base,
      remove_extension "hello.c" = Ok base
      ∧ base = Py.slice_until_neg 2 "hello.c"
      ∧ "hello.c" = base +:+ ".c"
      ∧ String.length "hello.c" = String.length base + 2.
Proof.
  assert (ends_in "hello.c" ".c") as H by (exists "hello"; reflexivity).
  split; [exact H | exact (remove_extension_strips_dot_c "hello.c" H)].
Defined.

(** C4. On every filename that does not end in [.c], [remove_extension]
    returns no value: it aborts with the UnsupportedExtension error, and the
    abort ends whatever build statement called it, so that nothing after
    the call runs. *)
Theorem remove_extension_rejects_other (filename : string) :
  ¬ ends_in filename ".c" →
  remove_extension filename = Raise (UnsupportedExtension filename)
  ∧ (∀ base, remove_extension filename ≠ Ok base)
  ∧ ∀ (B : Type) (rest : string → M B) (h : host) (s : state),
      (base <- lift (remove_extension filename) ;; rest base) h s
      = (Raise (UnsupportedExtension filename), s).
Proof.
  intros E%remove_extension_not_dot_c.
  split; [exact E|]. split.
  - intros base. by rewrite E.
  - intros B rest h s. unfold bind, lift. by rewrite E.
Qed.

Lemma remove_extension_rejects_other_witness :
  (¬ ends_in "foo.h" ".c"
   ∧ remove_extension "foo.h" = Raise (AbortMsg "Unknown extension: foo.h"))
  ∧ (¬ ends_in "foo" ".c"
     ∧ remove_extension "foo" = Raise (AbortMsg "Unknown extension: foo")).
Proof.
  assert (¬ ends_in "foo.h" ".c") as Hh by (apply endswith_false; reflexivity).
  assert (¬ ends_in "foo" ".c") as Hn by (apply endswith_false; reflexivity).
  split.
  - split; [exact Hh | exact (proj1 (remove_extension_rejects_other "foo.h" Hh))].
  - split; [exact Hn | exact (proj1 (remove_extension_rejects_other "foo" Hn))].
Defined.

(** C5, as stated, fails: [a.c.c] ends in [.c], its base [a.c] ends in [.c]
    again, and [remove_extension] succeeds on both, one after the other. *)
Lemma remove_extension_twice_counterexample :
  ends_in "a.c.c" ".c"
  ∧ remove_extension "a.c.c" = Ok "a.c"
  ∧ ends_in "a.c" ".c"
  ∧ remove_extension "a.c" = Ok "a"
  ∧ ¬ (∀ filename base,
         ends_in filename ".c" →
         remove_extension filename = Ok base →
         ¬ ends_in base ".c"
         ∧ remove_extension base = Raise (UnsupportedExtension base)).
Proof.
  assert (ends_in "a.c.c" ".c") as H1 by (exists "a.c"; reflexivity).
  assert (ends_in "a.c" ".c") as H2 by (exists "a"; reflexivity).
  repeat split; try done.
  intros Hclaim. destruct (Hclaim "a.c.c" "a.c" H1 eq_refl) as [Hno _].
  exact (Hno H2).
Qed.

(** C5, amended. On every filename that ends in [.c], the base that
    [remove_extension] returns ends in [.c] exactly when the filename ends
    in [.c.c]. When it does not, applying [remove_extension] to the base
    fails with UnsupportedExtension; when it does, the second application
    succeeds and removes the second [.c]. *)
Theorem remove_extension_twice (filename : string) :
  ends_in filename ".c" →
  ∃ base,
    remove_extension filename = Ok base
    ∧ (ends_in base ".c" ↔ ends_in filename ".c.c")
    ∧ (¬ ends_in filename ".c.c" →
       remove_extension base = Raise (UnsupportedExtension base))
    ∧ (ends_in filename ".c.c" →
       ∃ base', remove_extension base = Ok base' ∧ filename = base' +:+ ".c.c").
Proof.
  intros [base ->]. exists base.
  assert (ends_in base ".c" ↔ ends_in (base +:+ ".c") ".c.c") as Hiff.
  { split.
    - intros [stem ->]. exists stem. by rewrite app_assoc.
    - intros [stem H]. exists stem.
      change ".c.c" with (".c" +:+ ".c") in H. rewrite <-app_assoc in H.
      by apply app_inj_r in H. }
  split; [apply remove_extension_app|]. split; [exact Hiff|]. split.
  - intros Hno. apply remove_extension_not_dot_c. by rewrite Hiff.
  - intros [stem ->]%Hiff. exists stem.
    split; [apply remove_extension_app | by rewrite app_assoc].
Qed.

Lemma remove_extension_twice_witness :
  ends_in "main.c" ".c"
  ∧ ∃ base,
      remove_extension "main.c" = Ok base
      ∧ (ends_in base ".c" ↔ ends_in "main.c" ".c.c")
      ∧ (¬ ends_in "main.c" ".c.c" →
         remove_extension base = Raise (UnsupportedExtension base))
      ∧ (ends_in "main.c" ".c.c" →
         ∃ base', remove_extension base = Ok base' ∧ "main.c" = base' +:+ ".c.c").
Proof.
  assert (ends_in "main.c" ".c") as H by (exists "main"; reflexivity).
  split; [exact H | exact (remove_extension_twice "main.c" H)].
Defined.

(** ** os.walk and getSources *)

Lemma elem_of_filenames (entries : list (string * node)) (f : string) :
  f ∈ filenames entries ↔ ∃ n, (f, n) ∈ entries ∧ is_dir n = false.
Proof.
  unfold filenames. rewrite list_elem_of_fmap. split.
  - intros ([f' n] & -> & [Hfile Hin]%list_elem_of_filter). by exists n.
  - intros (n & Hin & Hfile). exists (f, n). split; [done|].
    by apply list_elem_of_filter.
Qed.

Lemma elem_of_dirnames (entries : list (string * node)) (d : string) :
  d ∈ dirnames entries ↔ ∃ n, (d, n) ∈ entries ∧ is_dir n = true.
Proof.
  unfold dirnames. rewrite list_elem_of_fmap. split.
  - intros ([d' n] & -> & [Hdir Hin]%list_elem_of_filter). by exists n.
  - intros (n & Hin & Hdir). exists (d, n). split; [done|].
    by apply list_elem_of_filter.
Qed.

(** The names that the triples of a walk list as files are the entries
    listed below the walked tree that are not directories, each under the
    path of its own directory. *)
Lemma walk_lists_files (n : node) (top d f : string) :
  (∃ dirs files, (d, dirs, files) ∈ walk top n ∧ f ∈ files)
  ↔ listed_below top n d f.
Proof.
  split.
  - revert top. induction n as [|entries IH| |] using node_induction; intros top;
      try (intros (dirs & files & Hin & _); simpl in Hin;
           by apply elem_of_nil in Hin).
    intros (dirs & files & Hin & Hf). simpl in Hin.
    apply elem_of_cons in Hin as [[= -> -> ->]|Hin].
    + apply elem_of_filenames in Hf as (n & Hentry & Hfile).
      by apply (listed_here _ _ _ n).
    + apply list_elem_of_bind in Hin as ([dirname sub] & Hwalk & Hentry).
      rewrite Forall_forall in IH.
      destruct sub as [|sub| |]; try (simpl in Hwalk; by apply elem_of_nil in Hwalk).
      apply (listed_deeper _ _ dirname sub); [done|].
      apply (IH (dirname, Dir sub) Hentry). eauto.
  - induction 1 as [top entries f n Hin Hfile | top entries dirname sub d f Hin _ IH].
    + exists (dirnames entries), (filenames entries). split.
      * simpl. apply elem_of_cons. by left.
      * apply elem_of_filenames. by exists n.
    + destruct IH as (dirs & files & Hwalk & Hf).
      exists dirs, files. split; [|done].
      simpl. apply elem_of_cons. right.
      apply list_elem_of_bind. exists (dirname, Dir sub). done.
Qed.

(** A regular file below a tree is listed below it. *)
Lemma file_below_listed (top : string) (n : node) (d f : string) :
  file_below top n d f → listed_below top n d f.
Proof.
  induction 1 as [top entries f Hin | top entries dirname sub d f Hin Hsub IH].
  - by apply (listed_here _ _ _ File).
  - inversion IH; subst; by eapply listed_deeper.
Qed.

Lemma elem_of_getSources (self : project) (fs : filesystem) (root filename : string) :
  (root, filename) ∈ getSources self fs
  ↔ (∃ dirs files,
        (root, dirs, files) ∈ os_walk fs (getSourceDir self) ∧ filename ∈ files)
    ∧ Py.endswith filename ".c" = true.
Proof.
  unfold getSources. rewrite list_elem_of_bind. split.
  - intros ([[root' dirs] files] & Hin & Hwalk).
    apply list_elem_of_bind in Hin as (f & Hin & Hf).
    destruct (Py.endswith f ".c") eqn:E.
    + apply list_elem_of_singleton in Hin as [= -> ->]. eauto.
    + by apply elem_of_nil in Hin.
  - intros [(dirs & files & Hwalk & Hf) E].
    exists (root, dirs, files). split; [|done].
    apply list_elem_of_bind. exists filename. split; [|done].
    rewrite E. by apply list_elem_of_singleton.
Qed.

Lemma getSources_dot_c (self : project) (fs : filesystem) (unit : string * string) :
  unit ∈ getSources self fs → ends_in unit.2 ".c".
Proof.
  destruct unit as [root filename].
  intros [_ E]%elem_of_getSources. by apply endswith_spec.
Qed.

Lemma elem_of_getSources_listed
    (self : project) (fs : filesystem) (root filename : string) :
  (root, filename) ∈ getSources self fs
  ↔ (∃ n, nodes fs !! getSourceDir self = Some n
          ∧ listed_below (getSourceDir self) (followed n) root filename)
    ∧ ends_in filename ".c".
Proof.
  rewrite elem_of_getSources, endswith_spec. unfold os_walk.
  destruct (nodes fs !! getSourceDir self) as [n|] eqn:E.
  - rewrite walk_lists_files. split.
    + intros [Hbelow Hc]. eauto.
    + intros [(n' & [= <-] & Hbelow) Hc]. done.
  - split.
    + intros [(dirs & files & Hin & _) _]. by apply elem_of_nil in Hin.
    + intros [(n' & [=] & _) _].
Qed.

(** C8, as stated, fails. The source directory of the sample holds a
    dangling link named [z.c]: it is no regular file, and it is among the
    sources, since the walk lists every entry that is not a directory and
    [getSources] looks at names only. The regular file [f.c] in the
    directory to which the link [lib] leads is not among them, since the
    walk does not enter a linked directory. *)
Lemma getSources_exactly_dot_c_files_counterexample :
  nodes src_links !! getSourceDir bench = Some tree_links
  ∧ ("z.c", Other) ∈ [("a.c", File); ("z.c", Other);
                      ("lib", DirLink [("f.c", File)]);
                      ("sub", Dir [("g.c", File)])]
  ∧ ("/suite/src/bench/c", "z.c") ∈ getSources bench src_links
  ∧ (("/suite/src/bench/c/lib", "f.c") ∉ getSources bench src_links)
  ∧ (∀ root, ¬ file_below (getSourceDir bench) tree_links root "z.c")
  ∧ ¬ (∀ (self : project) (fs : filesystem) (root filename : string),
         (root, filename) ∈ getSources self fs
         ↔ (∃ n, nodes fs !! getSourceDir self = Some n
                 ∧ file_below (getSourceDir self) n root filename)
           ∧ ends_in filename ".c").
Proof.
  assert (("/suite/src/bench/c", "z.c") ∈ getSources bench src_links) as Hin.
  { vm_compute. apply list_elem_of_further, list_elem_of_here. }
  assert (∀ root, ¬ file_below (getSourceDir bench) tree_links root "z.c") as Hno.
  { intros root Hbelow.
    inversion Hbelow as [? ? ? Hhere|? ? dirname sub ? ? Hentry Hsub]; subst.
    - repeat (apply elem_of_cons in Hhere as [[=]|Hhere]).
      by apply elem_of_nil in Hhere.
    - repeat (apply elem_of_cons in Hentry as [[= -> ->]|Hentry]);
        [inversion Hsub..| |by apply elem_of_nil in Hentry].
      inversion Hsub as [? ? ? Hhere|? ? ? sub' ? ? Hentry' Hsub']; subst.
      + repeat (apply elem_of_cons in Hhere as [[=]|Hhere]).
        by apply elem_of_nil in Hhere.
      + repeat (apply elem_of_cons in Hentry' as [[= -> ->]|Hentry']);
          [inversion Hsub'|by apply elem_of_nil in Hentry']. }
  split; [reflexivity|].
  split; [apply list_elem_of_further, list_elem_of_here|].
  split; [exact Hin|]. split.
  { vm_compute. intros Hlib.
    repeat (apply elem_of_cons in Hlib as [Hlib|Hlib]; [discriminate Hlib|]).
    by apply elem_of_nil in Hlib. }
  split; [exact Hno|].
  intros Hclaim.
  apply Hclaim in Hin as [(n & Hnode & Hbelow) _].
  assert (Some n = Some tree_links) as [= ->] by (by rewrite <-Hnode).
  by apply (Hno "/suite/src/bench/c").
Qed.

(** C8, amended. A pair (directory, filename) is among the sources of a
    project exactly when the project's source directory is there, the name
    ends in [.c], and the entry is listed, as something that is not a
    directory, by the source directory or by a directory reached from it
    through directories and no link (at any depth, and paired with the path
    of the directory that lists it). Every regular file below the source
    directory whose name ends in [.c] is such an entry. On the tree with
    [a.c], [b/c.c] and [d.h] the sources are [a.c] and [b/c.c]; on the
    tree with a dangling link [z.c] and a linked directory [lib], [z.c] is
    a source and what is in [lib] is not. *)
Theorem getSources_exactly_dot_c_files :
  (∀ (self : project) (fs : filesystem) (root filename : string),
     (root, filename) ∈ getSources self fs
     ↔ (∃ n, nodes fs !! getSourceDir self = Some n
             ∧ listed_below (getSourceDir self) (followed n) root filename)
       ∧ ends_in filename ".c")
  ∧ (∀ (self : project) (fs : filesystem) (n : node) (root filename : string),
       nodes fs !! getSourceDir self = Some n →
       file_below (getSourceDir self) n root filename →
       ends_in filename ".c" →
       (root, filename) ∈ getSources self fs)
  ∧ getSources bench (mount "/suite/src/bench/c" tree_abd empty_fs)
    = [("/suite/src/bench/c", "a.c"); ("/suite/src/bench/c/b", "c.c")]
  ∧ getSources bench src_links
    = [("/suite/src/bench/c", "a.c"); ("/suite/src/bench/c", "z.c");
       ("/suite/src/bench/c/sub", "g.c")].
Proof.
  split; [exact elem_of_getSources_listed|]. split; [|split; reflexivity].
  intros self fs n root filename Hnode Hbelow Hc.
  apply elem_of_getSources_listed. split; [|done].
  exists n. split; [done|].
  apply file_below_listed in Hbelow as Hlisted.
  by inversion Hbelow; subst.
Qed.

Lemma getSources_exactly_dot_c_files_witness :
  nodes src_links !! getSourceDir bench = Some tree_links
  ∧ file_below (getSourceDir bench) tree_links "/suite/src/bench/c/sub" "g.c"
  ∧ ends_in "g.c" ".c"
  ∧ ("/suite/src/bench/c/sub", "g.c") ∈ getSources bench src_links.
Proof.
  assert (file_below (getSourceDir bench) tree_links "/suite/src/bench/c/sub" "g.c")
    as Hbelow.
  { apply (file_deeper _ _ "sub" (Dir [("g.c", File)])).
    - do 3 apply list_elem_of_further. apply list_elem_of_here.
    - apply file_here. apply list_elem_of_here. }
  assert (ends_in "g.c" ".c") as Hc by (exists "g"; reflexivity).
  split; [reflexivity|]. split; [exact Hbelow|]. split; [exact Hc|].
  exact (proj1 (proj2 getSources_exactly_dot_c_files)
           bench src_links tree_links "/suite/src/bench/c/sub" "g.c"
           eq_refl Hbelow Hc).
Defined.

(** C9. When nothing is at the path of a project's source directory,
    [getSources] yields nothing; being a walk that ignores its errors, it
    has no failure to report, and [getResults] over it succeeds with
    nothing as well. *)
Theorem getSources_missing_root (self : project) (fs : filesystem) :
  nodes fs !! getSourceDir self = None →
  os_walk fs (getSourceDir self) = []
  ∧ getSources self fs = []
  ∧ getResults self fs = Ok [].
Proof.
  intros E.
  assert (os_walk fs (getSourceDir self) = []) as Hwalk.
  { unfold os_walk. by rewrite E. }
  assert (getSources self fs = []) as Hsrc.
  { unfold getSources. by rewrite Hwalk. }
  repeat split; [done..|].
  unfold getResults. by rewrite Hsrc.
Qed.

Lemma getSources_missing_root_witness :
  nodes empty_fs !! getSourceDir bench = None
  ∧ os_walk empty_fs (getSourceDir bench) = []
  ∧ getSources bench empty_fs = []
  ∧ getResults bench empty_fs = Ok [].
Proof.
  split; [reflexivity | exact (getSources_missing_root bench empty_fs eq_refl)].
Defined.

(** ** Paths *)

(** A relative component after a directory path that does not end in a
    separator is appended after one separator. *)
Lemma join2_plain (path b : string) :
  Py.startswith b "/" = false →
  path ≠ "" →
  ¬ ends_in path "/" →
  PosixPath.join2 path b = path +:+ "/" +:+ b.
Proof.
  intros Hb Hne Hsep%endswith_false. unfold PosixPath.join2, Py.falsy.
  rewrite Hb, Hsep. by apply String.eqb_neq in Hne as ->.
Qed.

(** ** getResults *)

Lemma yield_each_Ok {A B : Type} (body : A → result B) (g : A → B) (l : list A) :
  (∀ x, x ∈ l → body x = Ok (g x)) →
  yield_each body l = Ok (g <$> l).
Proof.
  induction l as [|x l IH]; intros Hbody; simpl; [done|].
  rewrite (Hbody x) by apply list_elem_of_here.
  rewrite IH; [done|]. intros y Hy. apply Hbody. by apply list_elem_of_further.
Qed.

Lemma result_path_dot_c (output_dir : string) (unit : string * string) :
  ends_in unit.2 ".c" →
  result_path output_dir unit = Ok (expected_result output_dir unit).
Proof.
  intros [stem Hstem]. unfold result_path, expected_result.
  by rewrite Hstem, remove_extension_app, slice_dot_c.
Qed.

(** C2. [getResults] succeeds and yields, for the source units in their
    order, one path each: the join of the output base, the project name and
    the filename with [.wasm] in the place of its trailing [.c]. The
    directory of the unit has no part in the path, so that units with the
    same filename in different directories get the same path, as the two
    [main.c] of the sample do. *)
Theorem getResults_flat (self : project) (fs : filesystem) :
  getResults self fs
  = Ok ((λ unit, PosixPath.join (output_base self)
                   [name self; Py.slice_until_neg 2 unit.2 +:+ ".wasm"])
          <$> getSources self fs)
  ∧ (∀ unit, unit ∈ getSources self fs →
             unit.2 = Py.slice_until_neg 2 unit.2 +:+ ".c")
  ∧ (∀ root root' filename,
       result_path (getOutputDir self) (root, filename)
       = result_path (getOutputDir self) (root', filename))
  ∧ getSources bench (mount "/suite/src/bench/c" tree_twins empty_fs)
    = [("/suite/src/bench/c/one", "main.c"); ("/suite/src/bench/c/two", "main.c")]
  ∧ getResults bench (mount "/suite/src/bench/c" tree_twins empty_fs)
    = Ok ["/mxbuild/bench/main.wasm"; "/mxbuild/bench/main.wasm"].
Proof.
  split; [|split; [|split; [|split]]]; [| | done | reflexivity | reflexivity].
  - unfold getResults. cbv zeta.
    apply (yield_each_Ok _ (expected_result (getOutputDir self))).
    intros unit Hin. apply result_path_dot_c. by eapply getSources_dot_c.
  - intros unit Hin. apply ends_in_dot_c_slice. by eapply getSources_dot_c.
Qed.



(** ** posixpath.split and the parents of a path *)

Lemma length_substring_le (n m : nat) (s : string) :
  String.length (String.substring n m s) ≤ String.length s.
Proof.
  revert n m. induction s as [|c s IH]; intros [|n] [|m]; simpl; try lia.
  - specialize (IH 0 m). lia.
  - specialize (IH n 0). lia.
  - specialize (IH n (S m)). lia.
Qed.

Lemma after_last_sep_le (p : string) :
  PosixPath.after_last_sep p ≤ String.length p.
Proof.
  induction p as [|c p IH]; simpl; [lia|].
  destruct (PosixPath.after_last_sep p); [|lia].
  destruct (PosixPath.is_sep c); lia.
Qed.

Lemma length_rstrip_sep (s : string) :
  String.length (PosixPath.rstrip_sep s) ≤ String.length s.
Proof.
  induction s as [|c s IH]; simpl; [lia|].
  destruct (Py.falsy _ && _); simpl; lia.
Qed.

(** The two parts of a split are no longer than the path. *)
Lemma split_length (p head tail : string) :
  PosixPath.split p = (head, tail) →
  String.length head + String.length tail ≤ String.length p.
Proof.
  unfold PosixPath.split. intros [= <- <-].
  pose proof (after_last_sep_le p) as Hle.
  pose proof (substring_split p _ Hle) as Hsplit.
  apply (f_equal String.length) in Hsplit. rewrite length_app in Hsplit.
  destruct (negb _ && negb _).
  - pose proof (length_rstrip_sep
                  (String.substring 0 (PosixPath.after_last_sep p) p)). lia.
  - lia.
Qed.

Lemma falsy_false_length (s : string) :
  Py.falsy s = false → 0 < String.length s.
Proof. destruct s; [done | simpl; lia]. Qed.

(** Where [os.makedirs] calls itself, it is on a shorter name. *)
Lemma split_for_makedirs_shorter (name head tail : string) :
  split_for_makedirs name = (head, tail) →
  Py.falsy tail = false →
  String.length head < String.length name.
Proof.
  unfold split_for_makedirs.
  destruct (PosixPath.split name) as [head0 tail0] eqn:Hsplit0.
  apply split_length in Hsplit0.
  destruct (Py.falsy tail0).
  - intros Hsplit%split_length Htail%falsy_false_length. lia.
  - intros [= <- <-] Htail%falsy_false_length. lia.
Qed.

Lemma missing_parents_shorter (fuel : nat) (f : filesystem) (name p : string) :
  p ∈ missing_parents fuel f name → String.length p < String.length name.
Proof.
  revert name. induction fuel as [|fuel IH]; intros name; simpl.
  { by intros ?%elem_of_nil. }
  destruct (split_for_makedirs name) as [head tail] eqn:Hsplit.
  destruct (negb (Py.falsy head) && negb (Py.falsy tail)
            && negb (path_exists f head)) eqn:Hcond.
  - apply andb_true_iff in Hcond as [[_ Htail%negb_true_iff]%andb_true_iff _].
    pose proof (split_for_makedirs_shorter _ _ _ Hsplit Htail).
    intros [Hin|Hin%list_elem_of_singleton]%elem_of_app; [|by subst].
    apply IH in Hin. lia.
  - by intros ?%elem_of_nil.
Qed.

Lemma missing_parents_empty (fuel : nat) (f : filesystem) :
  missing_parents fuel f "" = [].
Proof. by destruct fuel. Qed.

(** The length of the name is fuel enough: more of it changes nothing. *)
Lemma missing_parents_fuel (fuel fuel' : nat) (f : filesystem) (name : string) :
  String.length name ≤ fuel →
  String.length name ≤ fuel' →
  missing_parents fuel f name = missing_parents fuel' f name.
Proof.
  revert fuel' name. induction fuel as [|fuel IH]; intros fuel' name Hfuel Hfuel'.
  { destruct name; [|simpl in Hfuel; lia]. by rewrite !missing_parents_empty. }
  destruct fuel' as [|fuel'].
  { destruct name; [|simpl in Hfuel'; lia]. by rewrite !missing_parents_empty. }
  simpl. destruct (split_for_makedirs name) as [head tail] eqn:Hsplit.
  destruct (negb (Py.falsy head) && negb (Py.falsy tail)
            && negb (path_exists f head)) eqn:Hcond; [|done].
  apply andb_true_iff in Hcond as [[_ Htail%negb_true_iff]%andb_true_iff _].
  pose proof (split_for_makedirs_shorter _ _ _ Hsplit Htail).
  f_equal. apply IH; lia.
Qed.

Lemma path_exists_false (f : filesystem) (path : string) :
  path_exists f path = false → nodes f !! path = None.
Proof.
  unfold path_exists. intros [_ Hno%bool_decide_eq_false]%orb_false_iff.
  by apply eq_None_not_Some.
Qed.

Lemma path_exists_mono (f f' : filesystem) (path : string) :
  (∀ q, is_Some (nodes f !! q) → is_Some (nodes f' !! q)) →
  path_exists f path = true → path_exists f' path = true.
Proof.
  unfold path_exists. intros Hsub [Hroot|Hsome%bool_decide_eq_true]%orb_true_iff;
    apply orb_true_iff; [by left|].
  right. apply bool_decide_eq_true. by apply Hsub.
Qed.

Lemma missing_parents_absent (fuel : nat) (f : filesystem) (name p : string) :
  p ∈ missing_parents fuel f name → nodes f !! p = None.
Proof.
  revert name. induction fuel as [|fuel IH]; intros name; simpl.
  { by intros ?%elem_of_nil. }
  destruct (split_for_makedirs name) as [head tail].
  destruct (negb (Py.falsy head) && negb (Py.falsy tail)
            && negb (path_exists f head)) eqn:Hcond.
  - apply andb_true_iff in Hcond as [_ Habsent%negb_true_iff].
    intros [Hin|Hin%list_elem_of_singleton]%elem_of_app.
    + by eapply IH.
    + subst. by apply path_exists_false.
  - by intros ?%elem_of_nil.
Qed.

(** Once the parents that were missing are there, none is missing. *)
Lemma missing_parents_made (fuel : nat) (f f' : filesystem) (name : string) :
  (∀ q, is_Some (nodes f !! q) → is_Some (nodes f' !! q)) →
  (∀ p, p ∈ missing_parents fuel f name → is_Some (nodes f' !! p)) →
  missing_parents fuel f' name = [].
Proof.
  intros Hsub Hmade. destruct fuel as [|fuel]; [done|]. simpl in *.
  destruct (split_for_makedirs name) as [head tail].
  destruct (negb (Py.falsy head) && negb (Py.falsy tail)) eqn:Hparts; [|done].
  simpl in *.
  destruct (path_exists f head) eqn:Hhead; simpl in *.
  - by rewrite (path_exists_mono f f' head Hsub Hhead).
  - assert (path_exists f' head = true) as ->; [|done].
    unfold path_exists. apply orb_true_iff. right. apply bool_decide_eq_true.
    apply Hmade. apply elem_of_app. right. by apply list_elem_of_singleton.
Qed.

Lemma lookup_make_dirs (paths : list string) (f : filesystem) (q : string) :
  nodes (make_dirs paths f) !! q
  = if decide (q ∈ paths) then Some (Dir []) else nodes f !! q.
Proof.
  unfold make_dirs. cbn [nodes]. induction paths as [|path paths IH].
  - destruct (decide (q ∈ [])) as [Hin|]; [by apply elem_of_nil in Hin | done].
  - cbn [foldr].
    destruct (decide (q ∈ path :: paths)) as [Hin|Hnotin].
    + destruct (decide (q = path)) as [->|Hne].
      * by rewrite lookup_insert_eq.
      * rewrite lookup_insert_ne, IH by done.
        apply elem_of_cons in Hin as [?|Hin]; [done|].
        by rewrite decide_True.
    + rewrite lookup_insert_ne, IH.
      * rewrite decide_False; [done|]. intros ?. apply Hnotin.
        by apply list_elem_of_further.
      * intros ->. apply Hnotin. apply list_elem_of_here.
Qed.

(** ** mkdir_p *)

Lemma state_eta (s : state) : {| fs := fs s; trace := trace s |} = s.
Proof. by destruct s. Qed.

(** At its own path, [os.makedirs] finds what was there before it made the
    parents. *)
Lemma lookup_after_parents (path : string) (s : state) :
  nodes (fs (after_parents path s)) !! path = nodes (fs s) !! path.
Proof.
  unfold after_parents. cbn [fs]. rewrite lookup_make_dirs.
  rewrite decide_False; [done|].
  intros Hin%missing_parents_shorter. lia.
Qed.

Lemma isdir_after_parents (path : string) (s : state) :
  isdir (fs (after_parents path s)) path = isdir (fs s) path.
Proof. unfold isdir. by rewrite lookup_after_parents. Qed.

(** What [mkdir_p] does, by the state of the file system at [path]. *)
Lemma mkdir_p_cases (path : string) (h : host) (s : state) :
  mkdir_p path h s =
  match mkdir_denied (fs s) !! path with
  | Some e =>
      if bool_decide (e = EEXIST) && isdir (fs s) path
      then (Ok tt, after_parents path s)
      else (Raise (OSError e), after_parents path s)
  | None =>
      match nodes (fs s) !! path with
      | Some n =>
          if is_dir n then (Ok tt, after_parents path s)
          else (Raise (OSError EEXIST), after_parents path s)
      | None => (Ok tt, with_new_dir path s)
      end
  end.
Proof.
  pose proof (lookup_after_parents path s) as Hlookup.
  pose proof (isdir_after_parents path s) as Hisdir.
  unfold mkdir_p, try_except_OSError, os_makedirs, makedirs.
  unfold with_new_dir, after_parents in *. cbn [fs] in *.
  set (made := make_dirs _ (fs s)) in *.
  change (mkdir_denied made) with (mkdir_denied (fs s)).
  rewrite Hlookup.
  destruct (mkdir_denied (fs s) !! path) as [e|].
  - unfold bind, os_path_isdir. cbn [fs]. rewrite Hisdir.
    by destruct (bool_decide (e = EEXIST) && _).
  - destruct (nodes (fs s) !! path) as [n|] eqn:Hnode.
    + unfold bind, os_path_isdir. cbn [fs]. rewrite Hisdir.
      unfold isdir. rewrite Hnode. by destruct (is_dir n).
    + done.
Qed.

Lemma mkdir_p_trace (path : string) (h : host) (s : state) :
  trace (mkdir_p path h s).2 = trace s.
Proof.
  rewrite mkdir_p_cases.
  repeat case_match; done.
Qed.

Lemma mkdir_p_raises_OSError (path : string) (h : host) (s s1 : state) (e : exn) :
  mkdir_p path h s = (Raise e, s1) → ∃ code, e = OSError code.
Proof.
  rewrite mkdir_p_cases. intros Hraise.
  repeat case_match; simplify_eq; by eexists.
Qed.

(** What [mkdir_p] leaves at each path: what was there, or a new, empty
    directory where nothing was. *)
Lemma mkdir_p_lookup (path : string) (h : host) (s : state) (q : string) :
  nodes (fs (mkdir_p path h s).2) !! q = nodes (fs s) !! q
  ∨ (nodes (fs s) !! q = None ∧ nodes (fs (mkdir_p path h s).2) !! q = Some (Dir [])).
Proof.
  assert (nodes (fs (after_parents path s)) !! q = nodes (fs s) !! q
          ∨ (nodes (fs s) !! q = None
             ∧ nodes (fs (after_parents path s)) !! q = Some (Dir []))) as Hparents.
  { unfold after_parents. cbn [fs]. rewrite lookup_make_dirs.
    destruct (decide (q ∈ _)) as [Hin|]; [|by left].
    right. split; [by eapply missing_parents_absent | done]. }
  rewrite mkdir_p_cases.
  destruct (mkdir_denied (fs s) !! path) as [e|].
  { by destruct (bool_decide (e = EEXIST) && _). }
  destruct (nodes (fs s) !! path) as [n|] eqn:Hnode.
  { by destruct (is_dir n). }
  simpl. destruct (decide (q = path)) as [->|Hne].
  - right. by rewrite lookup_insert_eq.
  - by rewrite lookup_insert_ne.
Qed.

Lemma mkdir_p_denied (path : string) (h : host) (s : state) :
  mkdir_denied (fs (mkdir_p path h s).2) = mkdir_denied (fs s).
Proof.
  rewrite mkdir_p_cases. repeat case_match; done.
Qed.

Lemma mkdir_p_isdir (path : string) (h : host) (s s1 : state) :
  mkdir_p path h s = (Ok tt, s1) → isdir (fs s1) path = true.
Proof.
  rewrite mkdir_p_cases.
  destruct (mkdir_denied (fs s) !! path) as [e|].
  - destruct (bool_decide (e = EEXIST) && _) eqn:E; [|done].
    intros [= <-]. rewrite isdir_after_parents.
    by apply andb_true_iff in E as [_ ?].
  - destruct (nodes (fs s) !! path) as [n|] eqn:Hnode.
    + destruct (is_dir n) eqn:Hdir; [|done]. intros [= <-].
      rewrite isdir_after_parents. unfold isdir. by rewrite Hnode.
    + intros [= <-]. unfold isdir. simpl. by rewrite lookup_insert_eq.
Qed.

(** After [mkdir_p] has succeeded, a call in a state with the same file
    system succeeds and changes nothing. *)
Lemma mkdir_p_again (path : string) (h h' : host) (s s1 s' : state) :
  mkdir_p path h s = (Ok tt, s1) →
  fs s' = fs s1 →
  mkdir_p path h' s' = (Ok tt, s').
Proof.
  intros Hfirst Hfs.
  pose proof (mkdir_p_isdir _ _ _ _ Hfirst) as Hdir.
  assert (after_parents path s' = s') as Hnone.
  { unfold after_parents.
    assert (missing_parents (String.length path) (fs s') path = []) as ->;
      [|by destruct s' as [[] ?]].
    rewrite Hfs. replace s1 with (mkdir_p path h s).2 by by rewrite Hfirst.
    apply (missing_parents_made _ (fs s)).
    - intros q Hq. destruct (mkdir_p_lookup path h s q) as [->|[Hnone _]]; [done|].
      rewrite Hnone in Hq. by destruct Hq.
    - intros p Hp.
      assert (nodes (fs (after_parents path s)) !! p = Some (Dir [])) as Hmade.
      { unfold after_parents. cbn [fs]. rewrite lookup_make_dirs.
        by rewrite decide_True. }
      rewrite mkdir_p_cases.
      destruct (mkdir_denied (fs s) !! path) as [e|];
        [destruct (bool_decide (e = EEXIST) && _); cbn [snd]; by rewrite Hmade|].
      destruct (nodes (fs s) !! path) as [n|];
        [destruct (is_dir n); cbn [snd]; by rewrite Hmade|].
      unfold with_new_dir. cbn [snd fs nodes].
      destruct (decide (p = path)) as [->|Hne].
      + by rewrite lookup_insert_eq.
      + by rewrite lookup_insert_ne, Hmade. }
  assert (mkdir_denied (fs s') !! path = mkdir_denied (fs s) !! path) as Hdenied.
  { rewrite Hfs. replace s1 with (mkdir_p path h s).2 by by rewrite Hfirst.
    by rewrite mkdir_p_denied. }
  rewrite mkdir_p_cases, Hnone, Hdenied. rewrite <-Hfs in Hdir.
  rewrite mkdir_p_cases in Hfirst.
  destruct (mkdir_denied (fs s) !! path) as [e|].
  - destruct (bool_decide (e = EEXIST) && isdir (fs s) path) eqn:E; [|done].
    apply andb_true_iff in E as [-> _]. by rewrite Hdir.
  - unfold isdir in Hdir.
    destruct (nodes (fs s') !! path) as [n|]; [by rewrite Hdir | done].
Qed.

(** ** The steps of build *)

Lemma not_no_emcc_dir (h : host) :
  not_ (environ h !! "EMCC_DIR") = true ↔ no_emcc_dir h.
Proof.
  unfold not_, no_emcc_dir, Py.falsy.
  destruct (environ h !! "EMCC_DIR") as [d|].
  - rewrite String.eqb_eq. split; [intros ->; by right | by intros [|[= ->]]].
  - split; [by left | done].
Qed.

Lemma runs_app (t t' : list event) : runs (t ++ t') = runs t ++ runs t'.
Proof. apply omap_app. Qed.

Lemma runs_Run (cmds : list (list string)) : runs (Run <$> cmds) = cmds.
Proof. induction cmds as [|c cmds IH]; simpl; [done | f_equal; apply IH]. Qed.

Lemma until_failure_all (h : host) (cmds : list (list string)) :
  Forall (λ cmd, exit_status h cmd = 0%Z) cmds → until_failure h cmds = cmds.
Proof.
  induction 1 as [|cmd cmds H0 _ IH]; simpl; [done|].
  rewrite decide_True by done. by rewrite IH.
Qed.

Lemma until_failure_prefix (h : host) (cmds : list (list string)) :
  until_failure h cmds `prefix_of` cmds.
Proof.
  induction cmds as [|cmd cmds IH]; simpl; [done|].
  apply prefix_cons. case_decide; [done | apply prefix_nil].
Qed.

Lemma emcc_command_dot_c (emcc_dir output_dir : string) (unit : string * string) :
  ends_in unit.2 ".c" →
  emcc_command emcc_dir output_dir unit
  = Ok (expected_command emcc_dir output_dir unit).
Proof.
  destruct unit as [root filename]. intros [stem Hstem]. simpl in Hstem.
  unfold emcc_command, expected_command. simpl.
  by rewrite Hstem, remove_extension_app, slice_dot_c.
Qed.

Lemma run_step (cmd : list string) (rest : M unit) (h : host) (s : state) :
  ((args <- lift (Ok cmd) ;; mx_run args) ;; rest) h s
  = if decide (exit_status h cmd = 0%Z)
    then rest h {| fs := fs s; trace := trace s ++ [Run cmd] |}
    else (Raise (CompileFailure (exit_status h cmd)),
          {| fs := fs s; trace := trace s ++ [Run cmd] |}).
Proof. unfold bind, lift, mx_run. by case_decide. Qed.

(** [build], step by step: the output directory, then [EMCC_DIR], then the
    log line and the loop over the sources found at that moment. *)
Lemma build_steps (self : project) (h : host) (s : state) :
  build self h s =
  match mkdir_p (getOutputDir self) h s with
  | (Raise e, s1) => (Raise e, s1)
  | (Ok _, s1) =>
      match environ h !! "EMCC_DIR" with
      | None => (Raise MissingToolchain, s1)
      | Some emcc_dir =>
          if Py.falsy emcc_dir then (Raise MissingToolchain, s1)
          else
            for_each (getSources self (fs s1))
              (λ unit,
                 args <- lift (emcc_command emcc_dir (getOutputDir self) unit) ;;
                 mx_run args)
              h
              {| fs := fs s1;
                 trace := trace s1 ++
                   [Log ("Building files from the source dir: " +:+ getSourceDir self)] |}
      end
  end.
Proof.
  unfold build. cbv zeta. unfold bind at 1.
  destruct (mkdir_p (getOutputDir self) h s) as [[[]|e] s1]; [|done].
  unfold bind at 1. unfold mx_get_env at 1.
  destruct (environ h !! "EMCC_DIR") as [emcc_dir|]; [|done].
  unfold bind at 1. unfold not_. destruct (Py.falsy emcc_dir); done.
Qed.

Lemma build_no_emcc_dir (self : project) (h : host) (s : state) :
  no_emcc_dir h →
  build self h s
  = match mkdir_p (getOutputDir self) h s with
    | (Raise e, s1) => (Raise e, s1)
    | (Ok _, s1) => (Raise MissingToolchain, s1)
    end.
Proof.
  intros Hno. rewrite build_steps.
  destruct (mkdir_p (getOutputDir self) h s) as [[[]|e] s1]; [|done].
  destruct Hno as [-> | ->]; done.
Qed.

Lemma first_failure_cons (h : host) (cmd : list string) (cmds : list (list string)) :
  first_failure h (cmd :: cmds)
  = if decide (exit_status h cmd = 0%Z) then first_failure h cmds else Some cmd.
Proof.
  unfold first_failure. rewrite filter_cons.
  destruct (decide (exit_status h cmd = 0%Z)) as [H0|Hne].
  - by rewrite decide_False by (intros Hne; by apply Hne).
  - by rewrite decide_True.
Qed.

Lemma first_failure_None (h : host) (cmds : list (list string)) :
  first_failure h cmds = None ↔ Forall (λ cmd, exit_status h cmd = 0%Z) cmds.
Proof.
  induction cmds as [|cmd cmds IH]; [done|].
  rewrite first_failure_cons, Forall_cons. case_decide as Hc.
  - rewrite IH. split; [by intros ? | by intros [_ ?]].
  - split; [done | by intros [? _]].
Qed.

Lemma first_failure_Some (h : host) (cmds : list (list string)) (cmd : list string) :
  first_failure h cmds = Some cmd →
  exit_status h cmd ≠ 0%Z
  ∧ ∃ before after,
      cmds = before ++ cmd :: after
      ∧ Forall (λ c, exit_status h c = 0%Z) before
      ∧ until_failure h cmds = before ++ [cmd].
Proof.
  induction cmds as [|c cmds IH]; [done|].
  rewrite first_failure_cons. simpl. case_decide as Hc.
  - intros (Hne & before & after & -> & Hok & Huntil)%IH. split; [done|].
    exists (c :: before), after. rewrite Huntil. by repeat constructor.
  - intros [= ->]. split; [done|]. by exists [], cmds.
Qed.

(** The loop of [build], exactly. *)
Lemma compile_loop_exact (h : host) (emcc_dir output_dir : string)
    (units : list (string * string)) (s : state) :
  Forall (λ unit, ends_in unit.2 ".c") units →
  for_each units (λ unit,
    args <- lift (emcc_command emcc_dir output_dir unit) ;;
    mx_run args) h s
  = (loop_outcome h (expected_command emcc_dir output_dir <$> units),
     {| fs := fs s;
        trace := trace s ++
          (Run <$> until_failure h (expected_command emcc_dir output_dir <$> units)) |}).
Proof.
  intros Hc. revert s. induction Hc as [|unit units Hunit _ IH]; intros s.
  - simpl. unfold ret. by rewrite app_nil_r, state_eta.
  - simpl. rewrite (emcc_command_dot_c _ _ _ Hunit), run_step.
    unfold loop_outcome. rewrite first_failure_cons.
    case_decide as Hexit; [|done].
    rewrite IH. simpl. by rewrite <-(assoc_L (++)).
Qed.

(** [build] with [EMCC_DIR] set, after the output directory is ensured. *)
Lemma build_exact (self : project) (h : host) (s s1 : state) (emcc_dir : string) :
  environ h !! "EMCC_DIR" = Some emcc_dir →
  emcc_dir ≠ "" →
  mkdir_p (getOutputDir self) h s = (Ok tt, s1) →
  build self h s
  = (loop_outcome h
       (expected_command emcc_dir (getOutputDir self) <$> getSources self (fs s1)),
     {| fs := fs s1;
        trace := trace s ++ build_log_line self ::
          (Run <$> until_failure h
             (expected_command emcc_dir (getOutputDir self)
                <$> getSources self (fs s1))) |}).
Proof.
  intros Henv Hne Hmkdir.
  assert (trace s1 = trace s) as Htrace1.
  { rewrite <-(mkdir_p_trace (getOutputDir self) h s). by rewrite Hmkdir. }
  assert (Py.falsy emcc_dir = false) as Hfalsy.
  { unfold Py.falsy. by apply String.eqb_neq. }
  rewrite build_steps, Hmkdir, Henv, Hfalsy, compile_loop_exact.
  - simpl. by rewrite Htrace1, <-(assoc_L (++)).
  - apply Forall_forall. intros unit. apply getSources_dot_c.
Qed.

(** ** build *)

(** C1, as stated, fails. With [EMCC_DIR] set and the sources [x.c] and
    [y.c], a compiler that exits with status 1 is run on [x.c] only; and
    when a file is in the way of the output directory, [mkdir_p] raises and
    no compiler is run at all. *)
Lemma build_runs_emcc_counterexample :
  environ host_failing !! "EMCC_DIR" = Some "/opt/emsdk"
  ∧ getSources bench src_xy
    = [("/suite/src/bench/c", "x.c"); ("/suite/src/bench/c", "y.c")]
  ∧ (build bench host_failing (fresh src_xy)).1 = Raise (AbortCode 1)
  ∧ trace (build bench host_failing (fresh src_xy)).2
    = [Log "Building files from the source dir: /suite/src/bench/c";
       Run ["/opt/emsdk/emcc"; "-Os"; "/suite/src/bench/c/x.c"; "-o";
            "/mxbuild/bench/x.js"]]
  ∧ environ host_ok !! "EMCC_DIR" = Some "/opt/emsdk"
  ∧ getSources bench blocked_xy
    = [("/suite/src/bench/c", "x.c"); ("/suite/src/bench/c", "y.c")]
  ∧ build bench host_ok (fresh blocked_xy)
    = (Raise (OSError EEXIST), fresh blocked_xy)
  ∧ ¬ (∀ (self : project) (h : host) (s : state) (emcc_dir : string),
         environ h !! "EMCC_DIR" = Some emcc_dir →
         emcc_dir ≠ "" →
         runs (trace (build self h s).2)
         = runs (trace s)
           ++ (expected_command emcc_dir (getOutputDir self)
                 <$> getSources self (fs (build self h s).2))).
Proof.
  split; [reflexivity|]. split; [reflexivity|]. split; [reflexivity|].
  split; [reflexivity|]. split; [reflexivity|]. split; [reflexivity|].
  split; [reflexivity|].
  intros Hclaim.
  specialize (Hclaim bench host_ok (fresh blocked_xy) "/opt/emsdk" eq_refl).
  assert ("/opt/emsdk" ≠ "") as Hne by done.
  specialize (Hclaim Hne). vm_compute in Hclaim. discriminate Hclaim.
Qed.

(** C1, amended. With [EMCC_DIR] set to a non-empty directory and the output
    directory ensured by [mkdir_p], [build] gives to [mx.run] the commands
    of the source units found then, [join(emcc_dir, "emcc")], [-Os], the
    join of the unit's directory and filename, [-o] and the join of the
    output directory and the filename with [.js] for its trailing [.c]: in
    the order of the enumeration, each waited for before the next, up to
    and including the first that exits with a non-zero status. The build
    succeeds exactly when every command exits with 0, and has then run
    exactly one command per source unit; otherwise it aborts with the exit
    status of the first command that failed, the commands before it having
    succeeded and none after it having been run. *)
Theorem build_runs_emcc
    (self : project) (h : host) (s s1 : state) (emcc_dir : string) :
  environ h !! "EMCC_DIR" = Some emcc_dir →
  emcc_dir ≠ "" →
  mkdir_p (getOutputDir self) h s = (Ok tt, s1) →
  let cmds := expected_command emcc_dir (getOutputDir self)
                <$> getSources self (fs s1) in
  let after := build self h s in
  fs after.2 = fs s1
  ∧ runs (trace after.2) = runs (trace s) ++ until_failure h cmds
  ∧ until_failure h cmds `prefix_of` cmds
  ∧ (after.1 = Ok tt ↔ Forall (λ cmd, exit_status h cmd = 0%Z) cmds)
  ∧ (Forall (λ cmd, exit_status h cmd = 0%Z) cmds →
     runs (trace after.2) = runs (trace s) ++ cmds)
  ∧ (∀ cmd, first_failure h cmds = Some cmd →
            after.1 = Raise (CompileFailure (exit_status h cmd))
            ∧ exit_status h cmd ≠ 0%Z
            ∧ ∃ before rest,
                cmds = before ++ cmd :: rest
                ∧ Forall (λ c, exit_status h c = 0%Z) before
                ∧ runs (trace after.2) = runs (trace s) ++ before ++ [cmd])
  ∧ (∀ e, after.1 = Raise e →
          ∃ cmd, first_failure h cmds = Some cmd
                 ∧ e = CompileFailure (exit_status h cmd)).
Proof.
  intros Henv Hne Hmkdir cmds after. subst after.
  rewrite (build_exact _ _ _ _ _ Henv Hne Hmkdir). fold cmds. cbn [fst snd fs trace].
  assert (runs (trace s ++ build_log_line self :: (Run <$> until_failure h cmds))
          = runs (trace s) ++ until_failure h cmds) as Hruns.
  { rewrite runs_app. simpl. by rewrite runs_Run. }
  rewrite Hruns.
  split; [done|]. split; [done|]. split; [apply until_failure_prefix|].
  split; [|split; [|split]].
  - rewrite <-first_failure_None. unfold loop_outcome.
    destruct (first_failure h cmds); naive_solver.
  - intros Hall. by rewrite until_failure_all.
  - intros cmd Hfirst. unfold loop_outcome. rewrite Hfirst.
    apply first_failure_Some in Hfirst as (Hexit & before & rest & Hcmds & Hok & ->).
    split; [done|]. split; [done|]. by exists before, rest.
  - intros e. unfold loop_outcome.
    destruct (first_failure h cmds) as [cmd|]; [|done].
    intros [= <-]. by exists cmd.
Qed.

Lemma build_runs_emcc_witness :
  environ host_ok !! "EMCC_DIR" = Some "/opt/emsdk"
  ∧ mkdir_p (getOutputDir bench) host_ok (fresh src_xy)
    = (Ok tt, with_new_dir "/mxbuild/bench" (fresh src_xy))
  ∧ (build bench host_ok (fresh src_xy)).1 = Ok tt
  ∧ runs (trace (build bench host_ok (fresh src_xy)).2)
    = [["/opt/emsdk/emcc"; "-Os"; "/suite/src/bench/c/x.c"; "-o"; "/mxbuild/bench/x.js"];
       ["/opt/emsdk/emcc"; "-Os"; "/suite/src/bench/c/y.c"; "-o"; "/mxbuild/bench/y.js"]].
Proof.
  assert ("/opt/emsdk" ≠ "") as Hne by discriminate.
  assert (Forall (λ cmd, exit_status host_ok cmd = 0%Z)
            (expected_command "/opt/emsdk" (getOutputDir bench)
               <$> getSources bench (fs (with_new_dir "/mxbuild/bench" (fresh src_xy)))))
    as Hall by (apply Forall_forall; reflexivity).
  pose proof (build_runs_emcc bench host_ok (fresh src_xy)
                (with_new_dir "/mxbuild/bench" (fresh src_xy)) "/opt/emsdk"
                eq_refl Hne eq_refl) as (_ & _ & _ & Hok & Hruns & _).
  split; [reflexivity|]. split; [reflexivity|].
  split; [exact (proj2 Hok Hall) | exact (Hruns Hall)].
Defined.





(** C7, as stated, fails. With [EMCC_DIR] unset and a file in the way of the
    output directory, the build fails with the [OSError] of [mkdir_p], which
    comes before the look at [EMCC_DIR], and not with MissingToolchain. *)
Lemma build_without_emcc_dir_counterexample :
  no_emcc_dir host_unset
  ∧ nodes blocked_xy !! getOutputDir bench = Some File
  ∧ build bench host_unset (fresh blocked_xy)
    = (Raise (OSError EEXIST), fresh blocked_xy)
  ∧ ¬ (∀ (self : project) (h : host) (s : state),
         no_emcc_dir h → (build self h s).1 = Raise MissingToolchain).
Proof.
  assert (no_emcc_dir host_unset) as Hno by (left; reflexivity).
  split; [exact Hno|]. split; [reflexivity|]. split; [reflexivity|].
  intros Hclaim. specialize (Hclaim bench host_unset (fresh blocked_xy) Hno).
  vm_compute in Hclaim. discriminate Hclaim.
Qed.

(** C7, amended. With [EMCC_DIR] unset or empty, [build] fails and gives no
    command to [mx.run] (it leaves the trace as it was). It fails with
    MissingToolchain whenever [mkdir_p] has ensured the output directory;
    when [mkdir_p] raises, the build fails with that [OSError], in the
    state in which [mkdir_p] raised it. *)
Theorem build_without_emcc_dir (self : project) (h : host) (s : state) :
  no_emcc_dir h →
  (∃ e, (build self h s).1 = Raise e)
  ∧ trace (build self h s).2 = trace s
  ∧ runs (trace (build self h s).2) = runs (trace s)
  ∧ (∀ s1, mkdir_p (getOutputDir self) h s = (Ok tt, s1) →
           build self h s = (Raise MissingToolchain, s1))
  ∧ (∀ e s1, mkdir_p (getOutputDir self) h s = (Raise e, s1) →
             build self h s = (Raise e, s1) ∧ ∃ code, e = OSError code).
Proof.
  intros Hno. rewrite (build_no_emcc_dir _ _ _ Hno).
  pose proof (mkdir_p_trace (getOutputDir self) h s) as Htrace.
  destruct (mkdir_p (getOutputDir self) h s) as [[[]|e] s1] eqn:Hmkdir;
    simpl in *.
  - split; [by eexists|]. split; [done|]. split; [by rewrite Htrace|].
    split; [by intros s' [= ->] | by intros e s' [=]].
  - split; [by eexists|]. split; [done|]. split; [by rewrite Htrace|].
    split; [by intros s' [=]|].
    intros e' s' [= <- <-]. split; [done|].
    by eapply mkdir_p_raises_OSError.
Qed.

Lemma build_without_emcc_dir_witness :
  no_emcc_dir host_unset
  ∧ (build bench host_unset (fresh src_xy)).1 = Raise MissingToolchain
  ∧ runs (trace (build bench host_unset (fresh src_xy)).2) = [].
Proof.
  assert (no_emcc_dir host_unset) as Hno by (left; reflexivity).
  pose proof (build_without_emcc_dir bench host_unset (fresh src_xy) Hno)
    as (_ & _ & Hruns & Hmissing & _).
  split; [exact Hno|]. split; [|exact Hruns].
  exact (f_equal fst
           (Hmissing (with_new_dir "/mxbuild/bench" (fresh src_xy)) eq_refl)).
Defined.

(** * Further properties *)

(** ** mkdir_p *)

(** X1. [mkdir_p] is idempotent: once it has succeeded, its path is a
    directory, and a second call succeeds too and changes nothing. *)
Theorem mkdir_p_idempotent (path : string) (h : host) (s s1 : state) :
  mkdir_p path h s = (Ok tt, s1) →
  isdir (fs s1) path = true ∧ mkdir_p path h s1 = (Ok tt, s1).
Proof.
  intros Hfirst. split.
  - by eapply mkdir_p_isdir.
  - by eapply mkdir_p_again.
Qed.

Lemma mkdir_p_idempotent_witness :
  mkdir_p "/mxbuild/bench" host_ok (fresh src_xy)
  = (Ok tt, with_new_dir "/mxbuild/bench" (fresh src_xy))
  ∧ isdir (fs (with_new_dir "/mxbuild/bench" (fresh src_xy))) "/mxbuild/bench" = true
  ∧ mkdir_p "/mxbuild/bench" host_ok (with_new_dir "/mxbuild/bench" (fresh src_xy))
    = (Ok tt, with_new_dir "/mxbuild/bench" (fresh src_xy)).
Proof.
  split; [reflexivity|].
  exact (mkdir_p_idempotent "/mxbuild/bench" host_ok (fresh src_xy)
           (with_new_dir "/mxbuild/bench" (fresh src_xy)) eq_refl).
Defined.


(** What [mkdir_p] keeps: an entry that is not a directory stays as it is,
    a directory stays a directory, and what is new is a directory at the
    path or at one of its parents that were missing. *)
Lemma mkdir_p_keeps (path : string) (h : host) (s : state) :
  (∀ q n, nodes (fs s) !! q = Some n → is_dir n = false →
          nodes (fs (mkdir_p path h s).2) !! q = Some n)
  ∧ (∀ q, isdir (fs s) q = true → isdir (fs (mkdir_p path h s).2) q = true)
  ∧ (∀ q, nodes (fs s) !! q = None →
          nodes (fs (mkdir_p path h s).2) !! q = None
          ∨ (isdir (fs (mkdir_p path h s).2) q = true
             ∧ (q = path ∨ q ∈ missing_parents (String.length path) (fs s) path))).
Proof.
  split; [|split].
  - intros q n Hq Hfile.
    destruct (mkdir_p_lookup path h s q) as [->|[Hnone _]]; [done | congruence].
  - intros q. unfold isdir.
    destruct (mkdir_p_lookup path h s q) as [->|[Hnone _]]; [done|].
    by rewrite Hnone.
  - intros q Hq. unfold isdir.
    assert (nodes (fs (after_parents path s)) !! q
            = if decide (q ∈ missing_parents (String.length path) (fs s) path)
              then Some (Dir []) else None) as Hparents.
    { unfold after_parents. cbn [fs]. by rewrite lookup_make_dirs, Hq. }
    rewrite mkdir_p_cases.
    destruct (mkdir_denied (fs s) !! path) as [e|];
      [destruct (bool_decide (e = EEXIST) && _); cbn [snd]; rewrite Hparents;
       case_decide; auto|].
    destruct (nodes (fs s) !! path) as [n|];
      [destruct (is_dir n); cbn [snd]; rewrite Hparents; case_decide; auto|].
    unfold with_new_dir. cbn [snd fs nodes].
    destruct (decide (q = path)) as [->|Hne].
    + rewrite lookup_insert_eq. auto.
    + rewrite lookup_insert_ne, Hparents by done. case_decide; auto.
Qed.

(** X3. [mkdir_p] removes nothing and replaces nothing: an entry that is not
    a directory stays as it is, a directory stays a directory, and what is
    new is a directory, at the path or at one of its parents that were
    missing. The refusals of the operating system and the trace are as
    before. *)
Theorem mkdir_p_frame (path : string) (h : host) (s : state) :
  (∀ q n, nodes (fs s) !! q = Some n → is_dir n = false →
          nodes (fs (mkdir_p path h s).2) !! q = Some n)
  ∧ (∀ q, isdir (fs s) q = true → isdir (fs (mkdir_p path h s).2) q = true)
  ∧ (∀ q, nodes (fs s) !! q = None →
          nodes (fs (mkdir_p path h s).2) !! q = None
          ∨ (isdir (fs (mkdir_p path h s).2) q = true
             ∧ (q = path ∨ q ∈ missing_parents (String.length path) (fs s) path)))
  ∧ mkdir_denied (fs (mkdir_p path h s).2) = mkdir_denied (fs s)
  ∧ trace (mkdir_p path h s).2 = trace s.
Proof.
  destruct (mkdir_p_keeps path h s) as (Hfiles & Hdirs & Hnew).
  split; [exact Hfiles|]. split; [exact Hdirs|]. split; [exact Hnew|].
  split; [apply mkdir_p_denied | apply mkdir_p_trace].
Qed.

(** The parents that [os.makedirs] made stay when the leaf is refused. *)
Example mkdir_p_leaves_parents :
  (mkdir_p "/mxbuild/bench" host_ok (fresh full_xy)).1 = Raise (OSError ENOSPC)
  ∧ isdir full_xy "/mxbuild" = false
  ∧ isdir (fs (mkdir_p "/mxbuild/bench" host_ok (fresh full_xy)).2) "/mxbuild"
    = true
  ∧ isdir (fs (mkdir_p "/mxbuild/bench" host_ok (fresh full_xy)).2)
      "/mxbuild/bench" = false.
Proof. repeat split; reflexivity. Qed.

(** ** build, in full *)

(** X4. With [EMCC_DIR] set to a non-empty directory and the output
    directory ensured, [build] logs its one line first and then runs the
    commands of the source units up to the first that fails. It succeeds
    when none fails, and otherwise aborts with the exit status of the first
    command that failed, which is the last one it ran. *)
Theorem build_outcome (self : project) (h : host) (s s1 : state) (emcc_dir : string) :
  environ h !! "EMCC_DIR" = Some emcc_dir →
  emcc_dir ≠ "" →
  mkdir_p (getOutputDir self) h s = (Ok tt, s1) →
  let cmds := expected_command emcc_dir (getOutputDir self)
                <$> getSources self (fs s1) in
  trace (build self h s).2
  = trace s ++ build_log_line self :: (Run <$> until_failure h cmds)
  ∧ ((build self h s).1 = Ok tt ↔ Forall (λ cmd, exit_status h cmd = 0%Z) cmds)
  ∧ (∀ cmd, first_failure h cmds = Some cmd →
            (build self h s).1 = Raise (CompileFailure (exit_status h cmd))
            ∧ exit_status h cmd ≠ 0%Z
            ∧ last (trace (build self h s).2) = Some (Run cmd)).
Proof.
  intros Henv Hne Hmkdir cmds.
  rewrite (build_exact _ _ _ _ _ Henv Hne Hmkdir). fold cmds. simpl.
  split; [done|]. split.
  - rewrite <-first_failure_None. unfold loop_outcome.
    destruct (first_failure h cmds); naive_solver.
  - intros cmd Hfirst. unfold loop_outcome. rewrite Hfirst.
    apply first_failure_Some in Hfirst as (Hexit & before & after & _ & _ & ->).
    split; [done|]. split; [done|].
    rewrite fmap_app. simpl.
    replace (trace s ++ build_log_line self :: (Run <$> before) ++ [Run cmd])
      with ((trace s ++ build_log_line self :: (Run <$> before)) ++ [Run cmd])
      by (by rewrite <-(assoc_L (++))).
    apply last_snoc.
Qed.

Lemma build_outcome_witness :
  environ host_failing !! "EMCC_DIR" = Some "/opt/emsdk"
  ∧ mkdir_p (getOutputDir bench) host_failing (fresh src_xy)
    = (Ok tt, with_new_dir "/mxbuild/bench" (fresh src_xy))
  ∧ (build bench host_failing (fresh src_xy)).1 = Raise (CompileFailure 1)
  ∧ last (trace (build bench host_failing (fresh src_xy)).2)
    = Some (Run ["/opt/emsdk/emcc"; "-Os"; "/suite/src/bench/c/x.c"; "-o";
                 "/mxbuild/bench/x.js"]).
Proof.
  assert ("/opt/emsdk" ≠ "") as Hne by discriminate.
  pose proof (build_outcome bench host_failing (fresh src_xy)
                (with_new_dir "/mxbuild/bench" (fresh src_xy)) "/opt/emsdk"
                eq_refl Hne eq_refl) as (_ & _ & Hfail).
  destruct (Hfail ["/opt/emsdk/emcc"; "-Os"; "/suite/src/bench/c/x.c"; "-o";
                   "/mxbuild/bench/x.js"] eq_refl) as (Hres & _ & Hlast).
  split; [reflexivity|]. split; [reflexivity|]. split; [exact Hres | exact Hlast].
Defined.

Lemma getSources_none (self : project) (f : filesystem) :
  nodes f !! getSourceDir self = None → getSources self f = [].
Proof.
  intros Hnone. unfold getSources, os_walk. by rewrite Hnone.
Qed.

(** What [mkdir_p] makes is empty: the sources are what they were. *)
Lemma getSources_mkdir_p (self : project) (path : string) (h : host) (s : state) :
  getSources self (fs (mkdir_p path h s).2) = getSources self (fs s).
Proof.
  destruct (mkdir_p_lookup path h s (getSourceDir self)) as [Hsame|[Hnone Hnew]].
  - unfold getSources, os_walk. by rewrite Hsame.
  - rewrite (getSources_none self (fs s) Hnone).
    unfold getSources, os_walk. by rewrite Hnew.
Qed.

(** The file system after [build] is the one that [mkdir_p] leaves, and the
    trace has only grown. *)
Lemma build_state (self : project) (h : host) (s : state) :
  fs (build self h s).2 = fs (mkdir_p (getOutputDir self) h s).2
  ∧ trace s `prefix_of` trace (build self h s).2.
Proof.
  rewrite build_steps.
  pose proof (mkdir_p_trace (getOutputDir self) h s) as Htrace.
  destruct (mkdir_p (getOutputDir self) h s) as [[[]|e] s1]; simpl in *.
  - destruct (environ h !! "EMCC_DIR") as [emcc_dir|].
    + destruct (Py.falsy emcc_dir).
      * simpl. by rewrite Htrace.
      * rewrite compile_loop_exact.
        -- simpl. split; [done|]. rewrite Htrace, <-(assoc_L (++)).
           by apply prefix_app_r.
        -- apply Forall_forall. intros unit. apply getSources_dot_c.
    + simpl. by rewrite Htrace.
  - simpl. by rewrite Htrace.
Qed.

(** X5. By its own calls (what the commands it starts write is theirs),
    [build] removes nothing and replaces nothing, whatever the environment
    and however the build ends: an entry that is not a directory stays as
    it is, a directory stays a directory, and what is new is a directory,
    at the path of the output directory or at one of its parents that were
    missing. The sources that [getSources] yields are the same after the
    build as before, and the trace is only extended. *)
Theorem build_frame (self : project) (h : host) (s : state) :
  (∀ q n, nodes (fs s) !! q = Some n → is_dir n = false →
          nodes (fs (build self h s).2) !! q = Some n)
  ∧ (∀ q, isdir (fs s) q = true → isdir (fs (build self h s).2) q = true)
  ∧ (∀ q, nodes (fs s) !! q = None →
          nodes (fs (build self h s).2) !! q = None
          ∨ (isdir (fs (build self h s).2) q = true
             ∧ (q = getOutputDir self
                ∨ q ∈ missing_parents (String.length (getOutputDir self)) (fs s)
                        (getOutputDir self))))
  ∧ getSources self (fs (build self h s).2) = getSources self (fs s)
  ∧ trace s `prefix_of` trace (build self h s).2.
Proof.
  destruct (build_state self h s) as [-> Hprefix].
  destruct (mkdir_p_keeps (getOutputDir self) h s) as (Hfiles & Hdirs & Hnew).
  split; [exact Hfiles|]. split; [exact Hdirs|]. split; [exact Hnew|].
  split; [apply getSources_mkdir_p | exact Hprefix].
Qed.

(** X6. A build that fails fails in one of three ways: with the [OSError]
    that [mkdir_p] raised, in the state in which [mkdir_p] raised it and
    with nothing logged or run; with MissingToolchain, the output directory
    ensured and [EMCC_DIR] unset or empty; or with the non-zero exit status
    of a command that it ran, [EMCC_DIR] being set. It never fails with
    UnsupportedExtension. *)
Theorem build_failures (self : project) (h : host) (s : state) (e : exn) :
  (build self h s).1 = Raise e →
  (((∃ code, e = OSError code)
    ∧ (mkdir_p (getOutputDir self) h s).1 = Raise e
    ∧ (build self h s).2 = (mkdir_p (getOutputDir self) h s).2
    ∧ trace (build self h s).2 = trace s)
   ∨ (e = MissingToolchain
      ∧ no_emcc_dir h
      ∧ (mkdir_p (getOutputDir self) h s).1 = Ok tt)
   ∨ (∃ emcc_dir cmd,
        environ h !! "EMCC_DIR" = Some emcc_dir
        ∧ emcc_dir ≠ ""
        ∧ e = CompileFailure (exit_status h cmd)
        ∧ exit_status h cmd ≠ 0%Z
        ∧ cmd ∈ runs (trace (build self h s).2)))
  ∧ ∀ filename, e ≠ UnsupportedExtension filename.
Proof.
  intros Hfail.
  assert (∀ filename, MissingToolchain ≠ UnsupportedExtension filename) as Hmsg.
  { intros filename. discriminate. }
  pose proof (mkdir_p_trace (getOutputDir self) h s) as Htrace.
  destruct (mkdir_p (getOutputDir self) h s) as [[[]|e'] s1] eqn:Hmkdir.
  - destruct (environ h !! "EMCC_DIR") as [emcc_dir|] eqn:Henv.
    + destruct (decide (emcc_dir = "")) as [->|Hne].
      * rewrite build_no_emcc_dir, Hmkdir in Hfail by (by right).
        injection Hfail as <-. split; [|done]. right. left.
        split; [done|]. split; [by right | done].
      * rewrite (build_exact _ _ _ _ _ Henv Hne Hmkdir) in Hfail |- *.
        simpl in *. unfold loop_outcome in Hfail.
        destruct (first_failure h _) as [cmd|] eqn:Hfirst; [|done].
        injection Hfail as <-. split; [|done]. right. right.
        apply first_failure_Some in Hfirst as (Hexit & before & after & _ & _ & ->).
        exists emcc_dir, cmd. repeat split; [done..|].
        rewrite runs_app. simpl. rewrite runs_Run.
        apply elem_of_app. right. apply elem_of_app. right.
        apply list_elem_of_here.
    + rewrite build_no_emcc_dir, Hmkdir in Hfail by (by left).
      injection Hfail as <-. split; [|done]. right. left.
      split; [done|]. split; [by left | done].
  - destruct (mkdir_p_raises_OSError _ _ _ _ _ Hmkdir) as [code ->].
    rewrite build_steps, Hmkdir in Hfail |- *. injection Hfail as <-.
    split; [|done]. left. split; [by eexists | done].
Qed.

Lemma build_failures_witness :
  (build bench host_failing (fresh src_xy)).1 = Raise (AbortCode 1)
  ∧ ∀ filename, AbortCode 1 ≠ UnsupportedExtension filename.
Proof.
  split; [reflexivity|].
  exact (proj2 (build_failures bench host_failing (fresh src_xy) (AbortCode 1)
                  eq_refl)).
Defined.

(** X7. When [mkdir_p] cannot ensure the output directory, [build] fails
    with the same [OSError], in the state in which [mkdir_p] raised it
    (parents that were made before the refusal stay), and has logged no line
    and run no command, whatever the environment. *)
Theorem build_mkdir_fails (self : project) (h : host) (s : state) (e : exn) :
  (mkdir_p (getOutputDir self) h s).1 = Raise e →
  build self h s = (Raise e, (mkdir_p (getOutputDir self) h s).2)
  ∧ (∃ code, e = OSError code)
  ∧ trace (build self h s).2 = trace s.
Proof.
  intros Hraise. rewrite build_steps.
  pose proof (mkdir_p_trace (getOutputDir self) h s) as Htrace.
  destruct (mkdir_p (getOutputDir self) h s) as [[[]|e'] s1] eqn:Hmkdir;
    simpl in *; [done|].
  injection Hraise as ->.
  split; [done|]. split; [by eapply mkdir_p_raises_OSError | done].
Qed.

Lemma build_mkdir_fails_witness :
  (mkdir_p (getOutputDir bench) host_ok (fresh full_xy)).1
  = Raise (OSError ENOSPC)
  ∧ (build bench host_ok (fresh full_xy)).1 = Raise (OSError ENOSPC)
  ∧ trace (build bench host_ok (fresh full_xy)).2 = []
  ∧ isdir (fs (build bench host_ok (fresh full_xy)).2) "/mxbuild" = true.
Proof.
  pose proof (build_mkdir_fails bench host_ok (fresh full_xy)
                (OSError ENOSPC) eq_refl) as (Hbuild & _ & Htrace).
  split; [reflexivity|]. split; [exact (f_equal fst Hbuild)|].
  split; [exact Htrace|].
  exact (f_equal (λ r, isdir (fs r.2) "/mxbuild") Hbuild).
Defined.

Lemma getSources_still_none (self : project) (h : host) (s s1 : state) :
  nodes (fs s) !! getSourceDir self = None →
  mkdir_p (getOutputDir self) h s = (Ok tt, s1) →
  getSources self (fs s1) = [].
Proof.
  intros Hnone Hmkdir.
  replace s1 with (mkdir_p (getOutputDir self) h s).2 by by rewrite Hmkdir.
  rewrite getSources_mkdir_p. by apply getSources_none.
Qed.

(** X8. A source directory that is not there is no error for [build]: with
    [EMCC_DIR] set and the output directory ensured, the build succeeds,
    logs its line and runs no command. *)
Theorem build_missing_sources
    (self : project) (h : host) (s s1 : state) (emcc_dir : string) :
  environ h !! "EMCC_DIR" = Some emcc_dir →
  emcc_dir ≠ "" →
  mkdir_p (getOutputDir self) h s = (Ok tt, s1) →
  nodes (fs s) !! getSourceDir self = None →
  build self h s
  = (Ok tt, {| fs := fs s1; trace := trace s ++ [build_log_line self] |}).
Proof.
  intros Henv Hne Hmkdir Hnone.
  rewrite (build_exact _ _ _ _ _ Henv Hne Hmkdir).
  by rewrite (getSources_still_none _ _ _ _ Hnone Hmkdir).
Qed.

Lemma build_missing_sources_witness :
  environ host_ok !! "EMCC_DIR" = Some "/opt/emsdk"
  ∧ nodes (fs (fresh empty_fs)) !! getSourceDir bench = None
  ∧ build bench host_ok (fresh empty_fs)
    = (Ok tt,
       {| fs := mount "/mxbuild/bench" (Dir []) (mount "/mxbuild" (Dir []) empty_fs);
          trace := [Log "Building files from the source dir: /suite/src/bench/c"] |}).
Proof.
  assert ("/opt/emsdk" ≠ "") as Hne by discriminate.
  split; [reflexivity|]. split; [reflexivity|].
  exact (build_missing_sources bench host_ok (fresh empty_fs)
           (with_new_dir "/mxbuild/bench" (fresh empty_fs)) "/opt/emsdk"
           eq_refl Hne eq_refl eq_refl).
Defined.

(** X9. Nothing is remembered from one build to the next: after a build
    that succeeded, a second build succeeds as well, makes no change of its
    own to the file system, and logs its line and runs every command
    again. *)
Theorem build_again (self : project) (h : host) (s s1 : state) (emcc_dir : string) :
  environ h !! "EMCC_DIR" = Some emcc_dir →
  emcc_dir ≠ "" →
  mkdir_p (getOutputDir self) h s = (Ok tt, s1) →
  let cmds := expected_command emcc_dir (getOutputDir self)
                <$> getSources self (fs s1) in
  Forall (λ cmd, exit_status h cmd = 0%Z) cmds →
  (build self h s).1 = Ok tt
  ∧ build self h (build self h s).2
    = (Ok tt,
       {| fs := fs (build self h s).2;
          trace := trace (build self h s).2 ++ build_log_line self :: (Run <$> cmds) |}).
Proof.
  intros Henv Hne Hmkdir cmds Hall.
  assert (loop_outcome h cmds = Ok tt) as Hok.
  { unfold loop_outcome. by rewrite (proj2 (first_failure_None h cmds) Hall). }
  rewrite (build_exact _ _ _ _ _ Henv Hne Hmkdir). fold cmds. simpl.
  split; [exact Hok|].
  set (after := {| fs := fs s1;
                   trace := trace s ++ build_log_line self ::
                              (Run <$> until_failure h cmds) |}).
  assert (mkdir_p (getOutputDir self) h after = (Ok tt, after)) as Hagain.
  { by apply (mkdir_p_again _ h h s s1 after Hmkdir). }
  rewrite (build_exact _ _ _ _ _ Henv Hne Hagain). simpl. fold cmds.
  by rewrite Hok, (until_failure_all _ _ Hall).
Qed.

Lemma build_again_witness :
  environ host_ok !! "EMCC_DIR" = Some "/opt/emsdk"
  ∧ (build bench host_ok (fresh src_xy)).1 = Ok tt
  ∧ (build bench host_ok (build bench host_ok (fresh src_xy)).2).1 = Ok tt
  ∧ runs (trace (build bench host_ok (build bench host_ok (fresh src_xy)).2).2)
    = [["/opt/emsdk/emcc"; "-Os"; "/suite/src/bench/c/x.c"; "-o"; "/mxbuild/bench/x.js"];
       ["/opt/emsdk/emcc"; "-Os"; "/suite/src/bench/c/y.c"; "-o"; "/mxbuild/bench/y.js"];
       ["/opt/emsdk/emcc"; "-Os"; "/suite/src/bench/c/x.c"; "-o"; "/mxbuild/bench/x.js"];
       ["/opt/emsdk/emcc"; "-Os"; "/suite/src/bench/c/y.c"; "-o"; "/mxbuild/bench/y.js"]].
Proof.
  assert ("/opt/emsdk" ≠ "") as Hne by discriminate.
  assert (Forall (λ cmd, exit_status host_ok cmd = 0%Z)
            (expected_command "/opt/emsdk" (getOutputDir bench)
               <$> getSources bench (fs (with_new_dir "/mxbuild/bench" (fresh src_xy)))))
    as Hall by (apply Forall_forall; reflexivity).
  destruct (build_again bench host_ok (fresh src_xy)
              (with_new_dir "/mxbuild/bench" (fresh src_xy)) "/opt/emsdk"
              eq_refl Hne eq_refl Hall) as [Hfirst Hsecond].
  split; [reflexivity|]. split; [exact Hfirst|]. split.
  - exact (f_equal fst Hsecond).
  - exact (f_equal (λ r, runs (trace r.2)) Hsecond).
Defined.

(** ** getArchivableResults *)

Lemma runs_Log (lines : list string) : runs (Log <$> lines) = [].
Proof. induction lines as [|line lines IH]; [done | apply IH]. Qed.

Lemma yield_from_results (output_dir : string) (units : list (string * string))
    (h : host) (s : state) :
  Forall (λ unit, ends_in unit.2 ".c") units →
  yield_from units (λ unit,
    r <- lift (result_path output_dir unit) ;;
    mx_log r ;;
    ret r) h s
  = (Ok (expected_result output_dir <$> units),
     {| fs := fs s;
        trace := trace s ++ (Log <$> (expected_result output_dir <$> units)) |}).
Proof.
  intros Hc. revert s. induction Hc as [|unit units Hunit _ IH]; intros s.
  - simpl. unfold ret. by rewrite app_nil_r, state_eta.
  - simpl. unfold bind at 1. unfold bind at 1. unfold lift at 1.
    rewrite (result_path_dot_c _ _ Hunit).
    unfold bind at 1. unfold mx_log at 1. unfold ret at 1.
    unfold bind. rewrite IH. unfold ret. simpl.
    by rewrite <-(assoc_L (++)).
Qed.

(** X10. [getArchivableResults], whatever its two arguments, yields the
    paths that [getResults] yields, in the same order, and logs each of
    them once, in that order; it runs no command and leaves the file system
    alone. *)
Theorem getArchivableResults_logs
    (self : project) (use_relpath single : bool) (h : host) (s : state) :
  ∃ results,
    getResults self (fs s) = Ok results
    ∧ getArchivableResults self use_relpath single h s
      = (Ok results, {| fs := fs s; trace := trace s ++ (Log <$> results) |})
    ∧ runs (trace (getArchivableResults self use_relpath single h s).2)
      = runs (trace s).
Proof.
  assert (Forall (λ unit, ends_in unit.2 ".c") (getSources self (fs s))) as Hc.
  { apply Forall_forall. intros unit. apply getSources_dot_c. }
  exists (expected_result (getOutputDir self) <$> getSources self (fs s)).
  assert (getArchivableResults self use_relpath single h s
          = (Ok (expected_result (getOutputDir self) <$> getSources self (fs s)),
             {| fs := fs s;
                trace := trace s ++
                  (Log <$> (expected_result (getOutputDir self)
                              <$> getSources self (fs s))) |})) as Hrun.
  { unfold getArchivableResults. cbv zeta. unfold bind at 1.
    by rewrite yield_from_results. }
  split; [|split].
  - unfold getResults. cbv zeta.
    apply (yield_each_Ok _ (expected_result (getOutputDir self))).
    intros unit Hin. apply result_path_dot_c. by eapply getSources_dot_c.
  - exact Hrun.
  - rewrite Hrun. simpl. by rewrite runs_app, runs_Log, app_nil_r.
Qed.

(** ** Counting the sources *)

Lemma walk_Dir (top : string) (entries : list (string * node)) :
  walk top (Dir entries)
  = (top, dirnames entries, filenames entries)
      :: (entries ≫= λ e, walk (PosixPath.join2 top e.1) e.2).
Proof.
  simpl. f_equal. apply list_bind_ext; [|done]. by intros [dirname sub].
Qed.

Lemma filenames_cons (f : string) (sub : node) (entries : list (string * node)) :
  filenames ((f, sub) :: entries)
  = if is_dir sub then filenames entries else f :: filenames entries.
Proof.
  unfold filenames. rewrite filter_cons. simpl. by destruct sub.
Qed.

Lemma walk_sources_length (n : node) (top : string) :
  length (walk top n ≫= λ '(root, dirs, files),
            files ≫= λ filename,
              if Py.endswith filename ".c" then [(root, filename)] else [])
  = count_dot_c n.
Proof.
  revert top. induction n as [|entries IH| |] using node_induction; intros top;
    [done| |done..].
  rewrite walk_Dir, bind_cons, List.length_app.
  change (count_dot_c (Dir entries))
    with (sum_list_with
            (λ e : string * node,
               match e with
               | (f, sub) =>
                   match sub with
                   | File | Other => if Py.endswith f ".c" then 1 else 0
                   | Dir _ => count_dot_c sub
                   | DirLink _ => 0
                   end
               end) entries).
  induction entries as [|[f sub] entries IHentries]; [done|].
  apply Forall_cons_1 in IH as [Hsub Hrest]. specialize (IHentries Hrest).
  rewrite filenames_cons, (bind_cons _ (f, sub)), bind_app, List.length_app.
  simpl in Hsub. cbn [fst snd]. rewrite (Hsub (PosixPath.join2 top f)).
  destruct sub as [|sub|target|]; cbn [is_dir sum_list_with].
  - rewrite bind_cons, List.length_app.
    destruct (Py.endswith f ".c"); simpl in *; lia.
  - simpl in *. lia.
  - simpl in *. lia.
  - rewrite bind_cons, List.length_app.
    destruct (Py.endswith f ".c"); simpl in *; lia.
Qed.

(** X11. [getSources] yields as many units as there are entries whose name
    ends in [.c] and that are not directories, in the source directory and
    in the directories reached from it through no link: every such entry
    gives one unit and nothing else gives any; and none when the source
    directory is not there. *)
Theorem getSources_count (self : project) (f : filesystem) :
  length (getSources self f)
  = match nodes f !! getSourceDir self with
    | Some n => count_dot_c (followed n)
    | None => 0
    end.
Proof.
  unfold getSources, os_walk.
  destruct (nodes f !! getSourceDir self) as [n|]; [|done].
  apply walk_sources_length.
Qed.

Example getSources_count_deep :
  getSources bench src_deep
  = [("/suite/src/bench/c", "main.c");
     ("/suite/src/bench/c/lib", "util.c");
     ("/suite/src/bench/c/lib/gen", "tab.c")]
  ∧ count_dot_c tree_deep = 3
  ∧ length (getSources bench src_links) = 3
  ∧ count_dot_c tree_links = 3.
Proof. repeat split; reflexivity. Qed.

(** ** Collisions of results *)

Lemma startswith_wasm (base : string) :
  Py.startswith (base +:+ ".c") "/" = false →
  Py.startswith (base +:+ ".wasm") "/" = false.
Proof.
  unfold Py.startswith. destruct base as [|b base]; [done|].
  rewrite !app_cons. cbn [String.prefix].
  destruct (Ascii.ascii_dec _ b); [|done].
  by destruct (base +:+ ".c").
Qed.

Lemma join2_relative_inj (path b b' : string) :
  Py.startswith b "/" = false →
  Py.startswith b' "/" = false →
  PosixPath.join2 path b = PosixPath.join2 path b' →
  b = b'.
Proof.
  unfold PosixPath.join2. intros -> ->.
  destruct (Py.falsy path || Py.endswith path "/").
  - apply (inj (String.app path)).
  - intros H%(inj (String.app path)). by apply (inj (String.app "/")) in H.
Qed.

(** X12. Two source units whose filenames end in [.c] (and, as the names of
    directory entries, do not start with a separator) have the same
    declared result exactly when they have the same filename, whatever
    their directories. *)
Theorem result_path_collision (output_dir root root' f f' : string) :
  ends_in f ".c" →
  ends_in f' ".c" →
  Py.startswith f "/" = false →
  Py.startswith f' "/" = false →
  result_path output_dir (root, f) = result_path output_dir (root', f') ↔ f = f'.
Proof.
  intros [base ->] [base' ->] Hf Hf'. split; [|by intros ->].
  unfold result_path. simpl. rewrite !remove_extension_app.
  intros [= Hjoin]. apply join2_relative_inj in Hjoin.
  - change ".wasm" with (".was" +:+ "m") in Hjoin.
    apply (f_equal String.length) in Hjoin as Hlen.
    assert (base = base') as ->; [|done].
    rewrite <-(substring_0_app base ".wasm"), <-(substring_0_app base' ".wasm").
    rewrite !length_app in Hlen.
    change (".was" +:+ "m") with ".wasm" in Hjoin. rewrite Hjoin.
    f_equal. simpl in Hlen. lia.
  - by apply startswith_wasm.
  - by apply startswith_wasm.
Qed.

Lemma result_path_collision_witness :
  ends_in "main.c" ".c"
  ∧ result_path "/mxbuild/bench" ("/suite/src/bench/c/one", "main.c")
    = result_path "/mxbuild/bench" ("/suite/src/bench/c/two", "main.c")
  ∧ result_path "/mxbuild/bench" ("/suite/src/bench/c/one", "main.c")
    ≠ result_path "/mxbuild/bench" ("/suite/src/bench/c/one", "util.c").
Proof.
  assert (ends_in "main.c" ".c") as Hm by (exists "main"; reflexivity).
  assert (ends_in "util.c" ".c") as Hu by (exists "util"; reflexivity).
  split; [exact Hm|]. split.
  - exact (proj2 (result_path_collision "/mxbuild/bench"
                    "/suite/src/bench/c/one" "/suite/src/bench/c/two"
                    "main.c" "main.c" Hm Hm eq_refl eq_refl) eq_refl).
  - intros Heq.
    pose proof (proj1 (result_path_collision "/mxbuild/bench"
                         "/suite/src/bench/c/one" "/suite/src/bench/c/one"
                         "main.c" "util.c" Hm Hu eq_refl eq_refl) Heq) as Hname.
    discriminate Hname.
Defined.

(** ** The layout of a project *)

Lemma ends_in_app_r (a b : string) :
  b ≠ "" → ends_in (a +:+ b) "/" → ends_in b "/".
Proof.
  intros Hb. induction a as [|c a IH]; [done|].
  intros [[|c' stem] H]; rewrite ?app_cons, ?app_nil_l in H.
  - injection H as _ H. destruct a; [|done].
    rewrite app_nil_l in H. done.
  - injection H as _ H. apply IH. by exists stem.
Qed.

Lemma join2_plain_keeps (path c : string) :
  plain_base path → plain_component c →
  PosixPath.join2 path c = path +:+ "/" +:+ c
  ∧ plain_base (path +:+ "/" +:+ c).
Proof.
  intros [Hne Hsep] (Hc & Habs & Hcsep). split; [by apply join2_plain|].
  split.
  - destruct path; done.
  - intros Hends. apply Hcsep.
    apply (ends_in_app_r "/" c); [done|].
    apply (ends_in_app_r path ("/" +:+ c)); [done | exact Hends].
Qed.

(** X13. For a project whose directory, name and output base are plain path
    components (not empty, not ending in a separator, the name not
    absolute) and whose subdirectory is not absolute, the source directory
    is [<dir>/src/<name>/<subDir>] and the output directory is
    [<output_base>/<name>]. *)
Theorem project_layout (self : project) :
  plain_base (dir self) →
  plain_component (name self) →
  plain_base (output_base self) →
  Py.startswith (subDir self) "/" = false →
  getSourceDir self = dir self +:+ "/src/" +:+ name self +:+ "/" +:+ subDir self
  ∧ getOutputDir self = output_base self +:+ "/" +:+ name self.
Proof.
  intros Hdir Hname Hbase Hsub.
  unfold getSourceDir, getOutputDir, PosixPath.join. simpl.
  destruct (join2_plain_keeps (dir self) "src" Hdir) as [-> Hsrc].
  { repeat split; [done..|]. apply endswith_false. reflexivity. }
  destruct (join2_plain_keeps _ (name self) Hsrc Hname) as [-> [Hne Hsep]].
  rewrite (join2_plain _ (subDir self) Hsub Hne Hsep).
  split.
  - rewrite !app_assoc. done.
  - by apply join2_plain_keeps.
Qed.

Lemma project_layout_witness :
  plain_base (dir bench)
  ∧ plain_component (name bench)
  ∧ plain_base (output_base bench)
  ∧ getSourceDir bench = "/suite/src/bench/c"
  ∧ getOutputDir bench = "/mxbuild/bench".
Proof.
  assert (plain_base (dir bench)) as Hdir.
  { split; [discriminate | apply endswith_false; reflexivity]. }
  assert (plain_component (name bench)) as Hname.
  { split; [discriminate|]. split; [reflexivity | apply endswith_false; reflexivity]. }
  assert (plain_base (output_base bench)) as Hbase.
  { split; [discriminate | apply endswith_false; reflexivity]. }
  destruct (project_layout bench Hdir Hname Hbase eq_refl) as [Hsrc Hout].
  split; [exact Hdir|]. split; [exact Hname|]. split; [exact Hbase|].
  split; [exact Hsrc | exact Hout].
Defined.

(** ** Results and commands *)

(** X14. After a build in which every command succeeded, the declared
    results match the commands that were run one for one and in order: the
    target of each command is [<base>.js] in the output directory, and the
    result at the same place is [<base>.wasm] there, for the same base. *)
Theorem build_results_siblings
    (self : project) (h : host) (s s1 : state) (emcc_dir : string) :
  environ h !! "EMCC_DIR" = Some emcc_dir →
  emcc_dir ≠ "" →
  mkdir_p (getOutputDir self) h s = (Ok tt, s1) →
  Forall (λ cmd, exit_status h cmd = 0%Z)
    (expected_command emcc_dir (getOutputDir self) <$> getSources self (fs s1)) →
  ∃ cmds results,
    runs (trace (build self h s).2) = runs (trace s) ++ cmds
    ∧ getResults self (fs (build self h s).2) = Ok results
    ∧ Forall2 (λ cmd r, ∃ base,
                 last cmd = Some (PosixPath.join2 (getOutputDir self) (base +:+ ".js"))
                 ∧ r = PosixPath.join2 (getOutputDir self) (base +:+ ".wasm"))
        cmds results.
Proof.
  intros Henv Hne Hmkdir Hall.
  exists (expected_command emcc_dir (getOutputDir self) <$> getSources self (fs s1)),
         (expected_result (getOutputDir self) <$> getSources self (fs s1)).
  rewrite (build_exact _ _ _ _ _ Henv Hne Hmkdir). simpl.
  split; [|split].
  - rewrite runs_app. simpl. by rewrite runs_Run, (until_failure_all _ _ Hall).
  - unfold getResults. cbv zeta.
    apply (yield_each_Ok _ (expected_result (getOutputDir self))).
    intros unit Hin. apply result_path_dot_c. by eapply getSources_dot_c.
  - apply Forall2_fmap, Forall_Forall2_diag, Forall_forall.
    intros unit Hin. exists (Py.slice_until_neg 2 unit.2). done.
Qed.

Lemma build_results_siblings_witness :
  environ host_ok !! "EMCC_DIR" = Some "/opt/emsdk"
  ∧ ∃ cmds results,
      runs (trace (build bench host_ok (fresh src_xy)).2)
      = runs (trace (fresh src_xy)) ++ cmds
      ∧ getResults bench (fs (build bench host_ok (fresh src_xy)).2) = Ok results
      ∧ Forall2 (λ cmd r, ∃ base,
                   last cmd = Some (PosixPath.join2 (getOutputDir bench) (base +:+ ".js"))
                   ∧ r = PosixPath.join2 (getOutputDir bench) (base +:+ ".wasm"))
          cmds results.
Proof.
  assert ("/opt/emsdk" ≠ "") as Hne by discriminate.
  assert (Forall (λ cmd, exit_status host_ok cmd = 0%Z)
            (expected_command "/opt/emsdk" (getOutputDir bench)
               <$> getSources bench (fs (with_new_dir "/mxbuild/bench" (fresh src_xy)))))
    as Hall by (apply Forall_forall; reflexivity).
  split; [reflexivity|].
  exact (build_results_siblings bench host_ok (fresh src_xy)
           (with_new_dir "/mxbuild/bench" (fresh src_xy)) "/opt/emsdk"
           eq_refl Hne eq_refl Hall).
Defined.
